(** * A shallow embedding of the to-do application (main.py)

    The application keeps three MySQL tables (tasks, goals,
    notification_settings), classifies tasks against the current date,
    tracks weekly and monthly goals and sends reminders through a messaging
    client.  This development embeds the functions of main.py that carry
    that logic, together with the parts of Python's [datetime.date] and
    [str] they call, and proves properties of them. *)

From Stdlib Require Import ZArith Lia List Bool Ascii String PrimFloat Uint63.
From Stdlib Require Import Sorted Permutation.
From stdpp Require Import base decidable option list strings gmap pretty.

Local Open Scope Z_scope.

(** * Exceptions and fallible computations *)

(** The Python exceptions the embedded code can raise.  The two errors of
    Streamlit's number input carry the numbers they report.  [Error] stands
    for any other instance of [Exception], carrying its [str(e)]. *)
Inductive exn : Type :=
  | ValueError (msg : string)
  | OverflowError (msg : string)
  | ZeroDivisionError (msg : string)
  | StreamlitValueBelowMinError (value min_value : Z)
  | StreamlitValueAboveMaxError (value max_value : Z)
  | Error (msg : string).

Definition exn_str (e : exn) : string :=
  match e with
  | ValueError m | OverflowError m | ZeroDivisionError m | Error m => m
  | StreamlitValueBelowMinError value min_value =>
      "The `value` " +:+ pretty value +:+ " is less than the `min_value` "
        +:+ pretty min_value +:+ "."
  | StreamlitValueAboveMaxError value max_value =>
      "The `value` " +:+ pretty value +:+ " is greater than the `max_value` "
        +:+ pretty max_value +:+ "."
  end.

Inductive result (A : Type) : Type :=
  | Ok (a : A)
  | Raise (e : exn).
Arguments Ok {A} a.
Arguments Raise {A} e.

Definition rbind {A B} (r : result A) (k : A -> result B) : result B :=
  match r with
  | Ok a => k a
  | Raise e => Raise e
  end.

Notation "x <-! r ; k" := (rbind r (fun x => k))
  (at level 100, r at next level, right associativity,
   format "'[v' x  <-!  r ; '/' k ']'").

Definition is_ok {A} (r : result A) : bool :=
  match r with Ok _ => true | Raise _ => false end.

(** * Python's [datetime.date]

    main.py takes dates from [datetime.date]: it reads [year], [month] and
    [day], compares dates, adds and subtracts [timedelta(days=n)], and calls
    [weekday()] and [strftime("%A")].  The definitions below follow the
    reference implementation of the datetime module. *)
Module PyDate.

Record date : Type := Date { year : Z; month : Z; day : Z }.

Definition MINYEAR : Z := 1.
Definition MAXYEAR : Z := 9999.
(** [date.max.toordinal()] *)
Definition MAXORDINAL : Z := 3652059.

Definition DAYS_IN_MONTH : list Z :=
  [-1; 31; 28; 31; 30; 31; 30; 31; 31; 30; 31; 30; 31].
Definition DAYS_BEFORE_MONTH : list Z :=
  [-1; 0; 31; 59; 90; 120; 151; 181; 212; 243; 273; 304; 334].

(** [table[i]], for the indices the module uses (1 to 12). *)
Definition index (table : list Z) (i : Z) : Z :=
  nth (Z.to_nat i) table (-1).

Definition is_leap (y : Z) : bool :=
  (y mod 4 =? 0) && (negb (y mod 100 =? 0) || (y mod 400 =? 0)).

Definition days_before_year (y : Z) : Z :=
  let y := y - 1 in
  y * 365 + y / 4 - y / 100 + y / 400.

Definition days_in_month (y m : Z) : Z :=
  if (m =? 2) && is_leap y then 29 else index DAYS_IN_MONTH m.

Definition days_before_month (y m : Z) : Z :=
  index DAYS_BEFORE_MONTH m + (if (2 <? m) && is_leap y then 1 else 0).

Definition ymd2ord (y m d : Z) : Z :=
  days_before_year y + days_before_month y m + d.

Definition DI400Y : Z := 146097.
Definition DI100Y : Z := 36524.
Definition DI4Y : Z := 1461.

Definition ord2ymd (n : Z) : date :=
  let n := n - 1 in
  let n400 := n / DI400Y in
  let n := n mod DI400Y in
  let y := n400 * 400 + 1 in
  let n100 := n / DI100Y in
  let n := n mod DI100Y in
  let n4 := n / DI4Y in
  let n := n mod DI4Y in
  let n1 := n / 365 in
  let n := n mod 365 in
  let y := y + n100 * 100 + n4 * 4 + n1 in
  if (n1 =? 4) || (n100 =? 4) then Date (y - 1) 12 31
  else
    let leapyear := (n1 =? 3) && (negb (n4 =? 24) || (n100 =? 3)) in
    let m := Z.shiftr (n + 50) 5 in
    let preceding :=
      index DAYS_BEFORE_MONTH m + (if (2 <? m) && leapyear then 1 else 0) in
    let '(m, preceding) :=
      if n <? preceding
      then (m - 1,
            preceding - (index DAYS_IN_MONTH (m - 1)
                         + (if (m - 1 =? 2) && leapyear then 1 else 0)))
      else (m, preceding) in
    Date y m (n - preceding + 1).

(** The check made by the constructor [date(year, month, day)]. *)
Definition check_date_fields (y m d : Z) : bool :=
  (MINYEAR <=? y) && (y <=? MAXYEAR) && (1 <=? m) && (m <=? 12)
  && (1 <=? d) && (d <=? days_in_month y m).

Definition valid (d : date) : bool :=
  check_date_fields (year d) (month d) (day d).

(** An argument of the constructor as a C [int], where a C [long] has 64
    bits. *)
Definition as_c_int (n : Z) : result Z :=
  if (n <? - 2 ^ 63) || (2 ^ 63 <=? n)
  then Raise (OverflowError "Python int too large to convert to C long")
  else if 2 ^ 31 <=? n
  then Raise (OverflowError "signed integer is greater than maximum")
  else if n <? - 2 ^ 31
  then Raise (OverflowError "signed integer is less than minimum")
  else Ok n.

(** [date(y, m, d)]: the year is checked first, then the month, then the
    day. *)
Definition mk_date (y m d : Z) : result date :=
  y <-! as_c_int y;
  m <-! as_c_int m;
  d <-! as_c_int d;
  if (y <? MINYEAR) || (MAXYEAR <? y)
  then Raise (ValueError ("year " +:+ pretty y +:+ " is out of range"))
  else if (m <? 1) || (12 <? m)
  then Raise (ValueError "month must be in 1..12")
  else if (d <? 1) || (days_in_month y m <? d)
  then Raise (ValueError "day is out of range for month")
  else Ok (Date y m d).

Definition toordinal (d : date) : Z := ymd2ord (year d) (month d) (day d).

Definition fromordinal (n : Z) : date := ord2ymd n.

(** [d + timedelta(days=n)] *)
Definition add_days (d : date) (n : Z) : result date :=
  let o := toordinal d + n in
  if (0 <? o) && (o <=? MAXORDINAL) then Ok (fromordinal o)
  else Raise (OverflowError "date value out of range").

(** [d - timedelta(days=n)] *)
Definition sub_days (d : date) (n : Z) : result date := add_days d (- n).

(** [d.weekday()]: Monday is 0 and Sunday is 6. *)
Definition weekday (d : date) : Z := (toordinal d + 6) mod 7.

Definition DAYNAMES : list string :=
  ["Monday"; "Tuesday"; "Wednesday"; "Thursday"; "Friday"; "Saturday";
   "Sunday"]%string.

(** [d.strftime("%A")], in the C locale the program runs in. *)
Definition strftime_A (d : date) : string :=
  nth (Z.to_nat (weekday d)) DAYNAMES ""%string.

(** [d1 < d2]: dates are ordered as the triples (year, month, day). *)
Definition ltb (d1 d2 : date) : bool :=
  (year d1 <? year d2)
  || ((year d1 =? year d2)
      && ((month d1 <? month d2)
          || ((month d1 =? month d2) && (day d1 <? day d2)))).

(** [d1 <= d2] *)
Definition leb (d1 d2 : date) : bool := negb (ltb d2 d1).

#[global] Instance date_eq_dec : EqDecision date.
Proof. solve_decision. Defined.

#[global] Instance date_countable : Countable date :=
  inj_countable' (fun d => (year d, month d, day d))
                 (fun t => Date t.1.1 t.1.2 t.2)
                 (fun d => match d with Date _ _ _ => eq_refl end).

End PyDate.
Import PyDate.

Arguments ord2ymd : simpl never.
Arguments ymd2ord : simpl never.
Arguments fromordinal : simpl never.
Arguments toordinal : simpl never.

(** The month and day of the [n]-th day of a year, counted from 0: the last
    steps of [ord2ymd], on their own. *)
Definition month_day (leapyear : bool) (n : Z) : Z * Z :=
  let m := Z.shiftr (n + 50) 5 in
  let preceding :=
    index DAYS_BEFORE_MONTH m + (if (2 <? m) && leapyear then 1 else 0) in
  let '(m, preceding) :=
    if n <? preceding
    then (m - 1,
          preceding - (index DAYS_IN_MONTH (m - 1)
                       + (if (m - 1 =? 2) && leapyear then 1 else 0)))
    else (m, preceding) in
  (m, n - preceding + 1).

(** [month_day] lands on a day of the month it names, and that day is the
    [n]-th of the year. *)
Definition month_day_ok (leapyear : bool) (n : Z) : bool :=
  let '(m, d) := month_day leapyear n in
  (1 <=? m) && (m <=? 12) && (1 <=? d)
  && (d <=? (if (m =? 2) && leapyear then 29 else index DAYS_IN_MONTH m))
  && (index DAYS_BEFORE_MONTH m + (if (2 <? m) && leapyear then 1 else 0) + d
      =? n + 1).

(** * Python's [str]

    Text is a [string]: a sequence of code points, here those below 256. *)
Module PyStr.

(** [c.isspace()]: the white-space code points below 256. *)
Definition isspace (c : ascii) : bool :=
  let n := nat_of_ascii c in
  ((9 <=? n) && (n <=? 13) || (28 <=? n) && (n <=? 32)
   || (n =? 133) || (n =? 160))%nat.

(** [c.isdigit()] for one code point below 256: the decimal digits and
    the superscripts two, three and one. *)
Definition isdigit_char (c : ascii) : bool :=
  let n := nat_of_ascii c in
  ((48 <=? n) && (n <=? 57) || (n =? 178) || (n =? 179) || (n =? 185))%nat.

Fixpoint lstrip (s : string) : string :=
  match s with
  | EmptyString => EmptyString
  | String c r => if isspace c then lstrip r else s
  end.

Fixpoint rstrip (s : string) : string :=
  match s with
  | EmptyString => EmptyString
  | String c r =>
      match rstrip r with
      | EmptyString => if isspace c then EmptyString else String c EmptyString
      | r' => String c r'
      end
  end.

(** [s.strip()] *)
Definition strip (s : string) : string := rstrip (lstrip s).

(** Truth value of a string: non-empty. *)
Definition truthy (s : string) : bool :=
  match s with EmptyString => false | String _ _ => true end.

Fixpoint all_chars (p : ascii -> bool) (s : string) : bool :=
  match s with
  | EmptyString => true
  | String c r => p c && all_chars p r
  end.

(** [s.isdigit()]: at least one character, and all of them digits. *)
Definition isdigit (s : string) : bool := truthy s && all_chars isdigit_char s.

(** [s.startswith(c)] for a prefix of one character. *)
Definition startswith (c : ascii) (s : string) : bool :=
  match s with
  | EmptyString => false
  | String c' _ => Ascii.eqb c' c
  end.

(** [s[1:]] *)
Definition tail (s : string) : string :=
  match s with EmptyString => EmptyString | String _ r => r end.

(** [s.split(sep)] for a separator of one character: never the empty
    list, [""] for the empty string. *)
Fixpoint split (sep : ascii) (s : string) : list string :=
  match s with
  | EmptyString => [EmptyString]
  | String c r =>
      if Ascii.eqb c sep then EmptyString :: split sep r
      else match split sep r with
           | [] => [String c EmptyString]
           | w :: ws => String c w :: ws
           end
  end.

(** [sep.join(l)] *)
Fixpoint join (sep : string) (l : list string) : string :=
  match l with
  | [] => EmptyString
  | [w] => w
  | w :: ws => String.append w (String.append sep (join sep ws))
  end.

(** [x in l] for a list of strings. *)
Definition mem (x : string) (l : list string) : bool :=
  existsb (String.eqb x) l.

End PyStr.

(** * The tables

    A function that writes to a table is embedded by what its statements
    do to the rows when the connection opens and the server takes the
    values.  Which values the columns take is said by [fits_tasks_columns]
    and [fits_settings_columns] below, and [connection] carries the outcome
    of a function's database part where its returning or raising is the
    matter. *)

Inductive Status : Type := Pending | Completed.
Inductive Priority : Type := Low | Medium | High.
Inductive TaskType : Type := One_time | Daily | Weekly | Monthly.
(** The [period] column of goals. *)
Inductive Period : Type := Weekly_goal | Monthly_goal.

#[global] Instance status_eq_dec : EqDecision Status.
Proof. solve_decision. Defined.
#[global] Instance priority_eq_dec : EqDecision Priority.
Proof. solve_decision. Defined.
#[global] Instance task_type_eq_dec : EqDecision TaskType.
Proof. solve_decision. Defined.
#[global] Instance period_eq_dec : EqDecision Period.
Proof. solve_decision. Defined.

(** A row of [tasks]; [None] is SQL's NULL in the columns that take it. *)
Record task : Type := Task {
  id : Z;
  title : string;
  description : string;
  status : Status;
  priority : Priority;
  task_type : TaskType;
  week_days : option string;
  monthly_date : option Z;
  end_date : option date;
  last_completed : option date;
  completed_at : option date;
  created_at : Z
}.

(** A row of [goals]. *)
Record goal : Type := Goal {
  goal_id : Z;
  period : Period;
  target_count : Z;
  start_date : option date;
  goal_end_date : option date;
  goal_created_at : Z
}.

(** The database: the rows of each table and its AUTO_INCREMENT counter. *)
Record db : Type := Db {
  tasks : list task;
  next_task_id : Z;
  goals : list goal;
  next_goal_id : Z
}.

(** ** SQL conditions: three-valued, [None] is UNKNOWN *)
Module Sql.

Definition and3 (a b : option bool) : option bool :=
  match a, b with
  | Some false, _ | _, Some false => Some false
  | Some true, Some true => Some true
  | _, _ => None
  end.

(** [col = value] *)
Definition eq3 {A} `{EqDecision A} (col : option A) (v : A) : option bool :=
  match col with
  | Some x => Some (bool_decide (x = v))
  | None => None
  end.

(** [col BETWEEN lo AND hi] on dates *)
Definition between (col : option date) (lo hi : date) : option bool :=
  match col with
  | Some d => Some (PyDate.leb lo d && PyDate.leb d hi)
  | None => None
  end.

(** A row is selected when its WHERE condition is TRUE. *)
Definition holds (c : option bool) : bool :=
  match c with Some true => true | _ => false end.

End Sql.

(** Truth value of a nullable column read into Python: NULL is [None],
    which is false; a date is always true, a string when it is not
    empty. *)
Definition date_truthy (d : option date) : bool :=
  match d with Some _ => true | None => false end.
Definition str_truthy (s : option string) : bool :=
  match s with Some s => PyStr.truthy s | None => false end.

(** * CRUD operations on tasks *)

(** [add_task]: one INSERT; status and completed_at take their column
    defaults, last_completed is NULL, the id comes from AUTO_INCREMENT.
    The row holds the values as they are given, which is what the server
    stores when they fit their columns. *)
Definition add_task (title desc : string) (pr : Priority) (ty : TaskType)
    (week_days : string) (monthly_date : option Z) (end_date : option date)
    (now : Z) (d : db) : db :=
  let row := Task (next_task_id d) title desc Pending pr ty (Some week_days)
                  monthly_date end_date None None now in
  Db (tasks d ++ [row]) (next_task_id d + 1) (goals d) (next_goal_id d).

(** The two UPDATE statements of [update_task_status], on one row. *)
Definition set_status_and_dates (new_status : Status) (lc : date) (t : task) : task :=
  Task (id t) (title t) (description t) new_status (priority t) (task_type t)
       (week_days t) (monthly_date t) (end_date t) (Some lc) (Some lc)
       (created_at t).

Definition set_status (new_status : Status) (t : task) : task :=
  Task (id t) (title t) (description t) new_status (priority t) (task_type t)
       (week_days t) (monthly_date t) (end_date t) (last_completed t)
       (completed_at t) (created_at t).

(** [update_task_status(task_id, new_status, last_completed=None)] *)
Definition update_task_status (task_id : Z) (new_status : Status)
    (last_completed : option date) (d : db) : db :=
  let upd (t : task) :=
    if id t =? task_id then
      match last_completed with
      | Some lc => set_status_and_dates new_status lc t
      | None => set_status new_status t
      end
    else t in
  Db (upd <$> tasks d) (next_task_id d) (goals d) (next_goal_id d).

(** The "Toggle Status" button of a task row in [main]. *)
Definition toggle_status (today : date) (t : task) (d : db) : db :=
  let new_status :=
    if bool_decide (status t = Pending) then Completed else Pending in
  let last_completed :=
    if bool_decide (new_status = Completed) then Some today else None in
  update_task_status (id t) new_status last_completed d.

(** * Goal tracking *)

(** The period window.  [save_goal], [get_current_goal] and
    [get_completed_count] each start with these same lines, on
    [today = date.today()]. *)
Definition period_window (p : Period) (today : date) : result (date * date) :=
  match p with
  | Weekly_goal =>
      start_date <-! sub_days today (weekday today);
      end_date <-! add_days start_date 6;
      Ok (start_date, end_date)
  | Monthly_goal =>
      start_date <-! mk_date (year today) (month today) 1;
      end_date <-!
        (if month today =? 12 then
           first <-! mk_date (year today + 1) 1 1;
           sub_days first 1
         else
           first <-! mk_date (year today) (month today + 1) 1;
           sub_days first 1);
      Ok (start_date, end_date)
  end.

(** [WHERE period=%s AND start_date=%s AND end_date=%s] *)
Definition goal_matches (p : Period) (s e : date) (g : goal) : bool :=
  Sql.holds (Sql.and3 (Sql.and3 (Sql.eq3 (Some (period g)) p)
                                (Sql.eq3 (start_date g) s))
                      (Sql.eq3 (goal_end_date g) e)).

Definition set_target (target : Z) (g : goal) : goal :=
  Goal (goal_id g) (period g) target (start_date g) (goal_end_date g)
       (goal_created_at g).

(** [save_goal(period, target_count)]; an exception leaves the database as
    it was. *)
Definition save_goal (p : Period) (target : Z) (today : date) (now : Z)
    (d : db) : result db :=
  w <-! period_window p today;
  let '(s, e) := w in
  match List.find (goal_matches p s e) (goals d) with
  | Some existing =>
      let upd (g : goal) :=
        if goal_id g =? goal_id existing then set_target target g else g in
      Ok (Db (tasks d) (next_task_id d) (upd <$> goals d) (next_goal_id d))
  | None =>
      let row := Goal (next_goal_id d) p target (Some s) (Some e) now in
      Ok (Db (tasks d) (next_task_id d) (goals d ++ [row]) (next_goal_id d + 1))
  end.

(** The database after a call that may have raised. *)
Definition db_after (d : db) (r : result db) : db :=
  match r with Ok d' => d' | Raise _ => d end.

(** [get_current_goal(period)] *)
Definition get_current_goal (p : Period) (today : date) (d : db)
    : result (option goal) :=
  w <-! period_window p today;
  let '(s, e) := w in
  Ok (List.find (goal_matches p s e) (goals d)).

(** [WHERE status="Completed" AND completed_at BETWEEN %s AND %s] *)
Definition completed_between (s e : date) (t : task) : bool :=
  Sql.holds (Sql.and3 (Sql.eq3 (Some (status t)) Completed)
                      (Sql.between (completed_at t) s e)).

(** [get_completed_count(period)] *)
Definition get_completed_count (p : Period) (today : date) (d : db)
    : result Z :=
  w <-! period_window p today;
  let '(s, e) := w in
  Ok (Z.of_nat (length (List.filter (completed_between s e) (tasks d)))).

(** ** Goal progress, in [main] *)

(** The double that an integer of magnitude below 2^53 converts to,
    exactly: a task count and a goal target are such integers. *)
Definition float_of_int (n : Z) : float :=
  if n <? 0 then PrimFloat.opp (PrimFloat.of_uint63 (Uint63.of_Z (- n)))
  else PrimFloat.of_uint63 (Uint63.of_Z n).

(** [a / b] on integers: true division, which on such operands divides the
    two doubles. *)
Definition truediv (a b : Z) : result float :=
  if b =? 0 then Raise (ZeroDivisionError "division by zero")
  else Ok (PrimFloat.div (float_of_int a) (float_of_int b)).

(** [min(x, y)] on floats: [y] when [y < x], otherwise [x]. *)
Definition py_min (x y : float) : float :=
  if PrimFloat.ltb y x then y else x.



(** * Messaging *)

(** What a call can do to the outside: print a line, or ask the messaging
    service to create a message. *)
Inductive event : Type :=
  | Printed (line : string)
  | Message_create (body from_ to : string).

(** A computation that appends to the trace of events and returns or
    raises. *)
Definition io (A : Type) : Type := list event -> result A * list event.

Definition io_ret {A} (a : A) : io A := fun tr => (Ok a, tr).
Definition io_raise {A} (e : exn) : io A := fun tr => (Raise e, tr).
Definition io_bind {A B} (m : io A) (k : A -> io B) : io B :=
  fun tr =>
    match m tr with
    | (Ok a, tr') => k a tr'
    | (Raise e, tr') => (Raise e, tr')
    end.
(** [try: m  except Exception as e: h e] *)
Definition try_except {A} (m : io A) (h : exn -> io A) : io A :=
  fun tr =>
    match m tr with
    | (Ok a, tr') => (Ok a, tr')
    | (Raise e, tr') => h e tr'
    end.
Definition io_lift {A} (r : result A) : io A := fun tr => (r, tr).
Definition print (line : string) : io unit := fun tr => (Ok tt, tr ++ [Printed line]).

Notation "x <- m ;; k" := (io_bind m (fun x => k))
  (at level 100, m at next level, right associativity,
   format "'[v' x  <-  m ;; '/' k ']'").

(** The messaging client: the process environment, the constructor
    [Client(account_sid, auth_token)] and [client.messages.create], each
    of which returns or raises an instance of [Exception]. *)
Record world : Type := World {
  environ : gmap string string;
  Client : string -> string -> result (string * string);
  messages_create : string * string -> string -> string -> string -> result string
}.

(** [get_twilio_client()] *)
Definition get_twilio_client (w : world) : io (string * string) :=
  let account_sid := environ w !! "TWILIO_ACCOUNT_SID"%string in
  let auth_token := environ w !! "TWILIO_AUTH_TOKEN"%string in
  let '(account_sid, auth_token) :=
    if negb (str_truthy account_sid) || negb (str_truthy auth_token)
    then ("ACC_SID", "AUTH_TOKEN")%string
    else (default ""%string account_sid, default ""%string auth_token) in
  io_lift (Client w account_sid auth_token).

Definition invalid_phone_message : string :=
  "Invalid phone number format. Must start with + followed by country code and number (no spaces or special characters).".

(** [client.messages.create(body=.., from_=.., to=..)], recorded in the
    trace. *)
Definition create_message (w : world) (client : string * string)
    (body from_ to : string) : io string :=
  fun tr => (messages_create w client body from_ to,
             tr ++ [Message_create body from_ to]).

(** [send_sms(body_text)] *)
Definition send_sms (w : world) (body_text : string) : io (bool * string) :=
  try_except
    (client <- get_twilio_client w ;;
     let from_number := default "+12345678"%string (environ w !! "TWILIO_PHONE_NUMBER"%string) in
     let to_number := default "+12345678"%string (environ w !! "USER_PHONE_NUMBER"%string) in
     if negb (PyStr.startswith "+" to_number)
        || negb (PyStr.isdigit (PyStr.tail to_number))
     then io_ret (false, invalid_phone_message)
     else
       sid <- create_message w client body_text from_number to_number ;;
       io_ret (true, sid))
    (fun e =>
       _ <- print (String.append "Error sending SMS: " (exn_str e)) ;;
       io_ret (false, exn_str e)).

(** * Tasks of the day *)

(** [day_name in task['week_days'].split(',')], guarded by
    [task['week_days']] being true. *)
Definition weekly_on (day_name : string) (t : task) : bool :=
  match week_days t with
  | Some s => PyStr.truthy s && PyStr.mem day_name (PyStr.split "," s)
  | None => false
  end.

(** The list [tasks_today] that [send_daily_summary] collects with its four
    queries, in their order, from the rows of [tasks]. *)
Definition tasks_today (today : date) (rows : list task) : list task :=
  let one_time_tasks :=
    List.filter (fun t => Sql.holds (Sql.and3 (Sql.eq3 (Some (task_type t)) One_time)
                                              (Sql.eq3 (end_date t) today))) rows in
  let daily_tasks :=
    List.filter (fun t => Sql.holds (Sql.eq3 (Some (task_type t)) Daily)) rows in
  let day_name := strftime_A today in
  let weekly_tasks :=
    List.filter (fun t => Sql.holds (Sql.eq3 (Some (task_type t)) Weekly)) rows in
  let day_of_month := day today in
  let monthly_tasks :=
    List.filter (fun t => Sql.holds (Sql.and3 (Sql.eq3 (Some (task_type t)) Monthly)
                                              (Sql.eq3 (monthly_date t) day_of_month))) rows in
  one_time_tasks ++ daily_tasks
    ++ List.filter (weekly_on day_name) weekly_tasks ++ monthly_tasks.

(** * Calendar view *)

Definition mapM {A B} (f : A -> result B) : list A -> result (list B) :=
  fix go l :=
    match l with
    | [] => Ok []
    | a :: l' => b <-! f a; bs <-! go l'; Ok (b :: bs)
    end.

(** [tasks_by_date[d].append(t)] *)
Definition append_at (t : task) (d : date) (m : gmap date (list task))
    : gmap date (list task) :=
  alter (fun l => l ++ [t]) d m.

(** The body of the loop over [active_tasks] in [create_calendar_view];
    [t['monthly_date']] is true when it is neither NULL nor 0. *)
Definition place (date_range : list date) (m : gmap date (list task))
    (t : task) : gmap date (list task) :=
  match task_type t with
  | One_time =>
      match end_date t with
      | Some e => if bool_decide (is_Some (m !! e)) then append_at t e m else m
      | None => m
      end
  | Daily => foldl (fun m d => append_at t d m) m date_range
  | Weekly =>
      match week_days t with
      | Some s =>
          if PyStr.truthy s then
            let weekdays := PyStr.split "," s in
            foldl (fun m d => if PyStr.mem (strftime_A d) weekdays
                              then append_at t d m else m) m date_range
          else m
      | None => m
      end
  | Monthly =>
      match monthly_date t with
      | Some md =>
          if negb (md =? 0) then
            foldl (fun m d => if day d =? md then append_at t d m else m)
                  m date_range
          else m
      | None => m
      end
  end.

(** [[l[i:i+7] for i in range(0, len(l), 7)]] *)
Definition weeks_of {A} (l : list A) : list (list A) :=
  (fun k => take 7 (drop (7 * k) l)) <$> seq 0 ((length l + 6) / 7)%nat.

(** What the calendar shows: a notice, or the weeks of the grid, each day
    with its tasks. *)
Inductive calendar : Type :=
  | Calendar_info (msg : string)
  | Calendar_grid (weeks : list (list (date * list task))).

(** [create_calendar_view(tasks)] on [today = date.today()] *)
Definition create_calendar_view (today : date) (tasks : list task)
    : result calendar :=
  let active_tasks := List.filter (fun t => date_truthy (end_date t)) tasks in
  match active_tasks with
  | [] => Ok (Calendar_info "No tasks with due dates to display.")
  | _ =>
      date_range <-! mapM (fun x => add_days today (Z.of_nat x)) (seq 0 15);
      let tasks_by_date : gmap date (list task) :=
        list_to_map ((fun d : date => (d, [])) <$> date_range) in
      let tasks_by_date := foldl (place date_range) tasks_by_date active_tasks in
      Ok (Calendar_grid
            ((fun week : list date => (fun d => (d, tasks_by_date !!! d)) <$> week)
               <$> weeks_of date_range))
  end.

(** * Dashboard *)

Record stats : Type := Stats { n_completed : Z; n_pending : Z; n_overdue : Z }.

(** [task_stats(tasks)] on [today = date.today()]: the three metrics. *)
Definition task_stats (today : date) (tasks : list task) : stats :=
  let pending :=
    Z.of_nat (length (List.filter (fun t => bool_decide (status t = Pending)) tasks)) in
  let completed :=
    Z.of_nat (length (List.filter (fun t => bool_decide (status t = Completed)) tasks)) in
  let overdue :=
    foldl (fun overdue t =>
             if negb (bool_decide (status t = Pending)) then overdue
             else if bool_decide (task_type t = One_time) then
               match end_date t with
               | Some e => if PyDate.ltb e today then overdue + 1 else overdue
               | None => overdue
               end
             else
               match last_completed t with
               | None => overdue + 1
               | Some lc => if PyDate.ltb lc today then overdue + 1 else overdue
               end) 0 tasks in
  Stats completed pending overdue.

(** * The add-task form *)

Inductive notice : Type :=
  | Success (msg : string)
  | Error_notice (msg : string).

(** The values of the sidebar widgets when "Add Task" is pressed. *)
Record add_form : Type := Add_form {
  form_title : string;
  form_desc : string;
  form_priority : Priority;
  form_task_type : TaskType;
  form_days : list string;
  form_day_of_month : Z;
  form_end_date : date
}.

(** The "Add Task" button in [main]. *)
Definition add_task_button (f : add_form) (now : Z) (d : db) : db * list notice :=
  let week_days :=
    match form_task_type f with
    | Weekly => PyStr.join "," (form_days f)
    | _ => ""%string
    end in
  let monthly_date :=
    match form_task_type f with Monthly => Some (form_day_of_month f) | _ => None end in
  let end_date :=
    match form_task_type f with One_time => Some (form_end_date f) | _ => None end in
  if PyStr.truthy (PyStr.strip (form_title f)) then
    (add_task (form_title f) (form_desc f) (form_priority f) (form_task_type f)
              week_days monthly_date end_date now d,
     [Success "Task added!"])
  else (d, [Error_notice "Title is required"]).

(** * Properties stated on the embedding *)

(** ** Overdue *)

Definition is_recurring (t : task) : bool :=
  match task_type t with
  | Daily | Weekly | Monthly => true
  | One_time => false
  end.

Definition due_before (today : date) (d : option date) : bool :=
  match d with Some e => PyDate.ltb e today | None => false end.

(** Overdue, with a recurring task overdue whenever its last-completed date
    is not today. *)
Definition overdue_when_not_today (today : date) (t : task) : bool :=
  bool_decide (status t = Pending)
  && ((bool_decide (task_type t = One_time) && due_before today (end_date t))
      || (is_recurring t && bool_decide (last_completed t <> Some today))).

(** Overdue, with a recurring task overdue when its last-completed date is
    absent or strictly before today. *)
Definition overdue_when_before_today (today : date) (t : task) : bool :=
  bool_decide (status t = Pending)
  && ((bool_decide (task_type t = One_time) && due_before today (end_date t))
      || (is_recurring t
          && match last_completed t with
             | None => true
             | Some lc => PyDate.ltb lc today
             end)).

(** ** Active today *)

(** "Active today", as the recurrence rules describe it. *)
Definition active_today (today : date) (t : task) : Prop :=
  (task_type t = One_time /\ end_date t = Some today)
  \/ task_type t = Daily
  \/ (task_type t = Weekly
      /\ exists s, week_days t = Some s /\ strftime_A today ∈ PyStr.split "," s)
  \/ (task_type t = Monthly /\ monthly_date t = Some (day today)).

(** The test [create_calendar_view] makes before it adds a task to the cell
    of date [d]. *)
Definition shown_on (d : date) (t : task) : bool :=
  match task_type t with
  | One_time => bool_decide (end_date t = Some d)
  | Daily => true
  | Weekly => weekly_on (strftime_A d) t
  | Monthly =>
      match monthly_date t with
      | Some md => negb (md =? 0) && (day d =? md)
      | None => false
      end
  end.

(** ** Goals *)

(** A task counts towards a goal: Completed, with a completed-at date
    inside the window. *)
Definition completed_in_window (s e : date) (t : task) : bool :=
  bool_decide (status t = Completed)
  && match completed_at t with
     | Some c => PyDate.leb s c && PyDate.leb c e
     | None => false
     end.

(** The window a goal row is for. *)
Definition goal_window (g : goal) : Period * option date * option date :=
  (period g, start_date g, goal_end_date g).

(** No two rows of [goals] are for the same window. *)
Definition unique_windows (gs : list goal) : Prop :=
  NoDup (goal_window <$> gs).

(** ** Messaging *)

(** The numbers [send_sms] reads from the environment, and the format it
    asks of the recipient's: a plus sign, then digits. *)
Definition from_number (w : world) : string :=
  default "+12345678"%string (environ w !! "TWILIO_PHONE_NUMBER"%string).

Definition to_number (w : world) : string :=
  default "+12345678"%string (environ w !! "USER_PHONE_NUMBER"%string).

Definition e164 (number : string) : bool :=
  PyStr.startswith "+" number && PyStr.isdigit (PyStr.tail number).

(** How many times a trace asks the service to create a message. *)
Definition creates (tr : list event) : nat :=
  length (List.filter
            (fun ev => match ev with
                       | Message_create _ _ _ => true
                       | Printed _ => false
                       end)
            tr).

(** * Sample rows *)

Definition watering : task :=
  Task 1 "Water the plants" "" Completed Medium Daily (Some ""%string) None None
       (Some (Date 2025 4 22)) (Some (Date 2025 4 22)) 0.

Definition done_tomorrow : task :=
  Task 1 "Stretch" "" Pending Low Daily (Some ""%string) None None
       (Some (Date 2025 4 23)) (Some (Date 2025 4 23)) 0.

Definition rent : task :=
  Task 7 "Pay rent" "" Pending High Monthly (Some ""%string) (Some 31) None
       None None 0.

Definition daily_walk : task :=
  Task 1 "Walk" "" Pending Medium Daily (Some ""%string) None None None None 0.

Definition dentist : task :=
  Task 2 "Dentist" "" Pending High One_time (Some ""%string) None
       (Some (Date 2025 4 25)) None None 0.




Definition one_goal : db :=
  Db [] 1
     [Goal 1 Weekly_goal 5 (Some (Date 2025 4 21)) (Some (Date 2025 4 27)) 0] 2.

(** A messaging service that answers, with both numbers set. *)
Definition twilio_up : world :=
  World (<["TWILIO_PHONE_NUMBER"%string := "+15550001111"%string]>
           (<["USER_PHONE_NUMBER"%string := "+15557654321"%string]> ∅))
        (fun sid token => Ok (sid, token))
        (fun _ _ _ _ => Ok "SM1"%string).

(** A messaging service that is down. *)
Definition service_down : world :=
  World ∅ (fun sid token => Ok (sid, token))
        (fun _ _ _ _ => Raise (Error "HTTP 503 error: Unable to create record")).

(** * More of main.py: deleting and editing, the forms, reminders, settings
    and the list view *)

(** ** Tasks *)

(** [delete_task(task_id)] *)
Definition delete_task (task_id : Z) (d : db) : db :=
  Db (List.filter (fun t => negb (id t =? task_id)) (tasks d))
     (next_task_id d) (goals d) (next_goal_id d).

(** [edit_task(task_id, title, desc, priority, task_type, week_days,
    monthly_date, end_date)]: the UPDATE sets these seven columns and
    leaves the others. *)
Definition edit_task (task_id : Z) (title desc : string) (pr : Priority)
    (ty : TaskType) (week_days : string) (monthly_date : option Z)
    (end_date : option date) (d : db) : db :=
  let upd (t : task) :=
    if id t =? task_id then
      Task (id t) title desc (status t) pr ty (Some week_days) monthly_date
           end_date (last_completed t) (completed_at t) (created_at t)
    else t in
  Db (upd <$> tasks d) (next_task_id d) (goals d) (next_goal_id d).

(** The ids of [tasks] are distinct and below the AUTO_INCREMENT counter. *)
Definition task_ids_ok (d : db) : Prop :=
  NoDup (id <$> tasks d) /\ forall t, t ∈ tasks d -> id t < next_task_id d.

(** The "Save Changes" button of the edit form of task [t] in [main];
    [editing] is [st.session_state.editing]. *)
Definition save_changes_button (t : task) (f : add_form)
    (editing : gmap Z bool) (d : db) : db * gmap Z bool * list notice :=
  let week_val :=
    match form_task_type f with
    | Weekly => PyStr.join "," (form_days f)
    | _ => ""%string
    end in
  let month_val :=
    match form_task_type f with Monthly => Some (form_day_of_month f) | _ => None end in
  let end_val :=
    match form_task_type f with One_time => Some (form_end_date f) | _ => None end in
  if PyStr.truthy (PyStr.strip (form_title f)) then
    (edit_task (id t) (form_title f) (form_desc f) (form_priority f)
               (form_task_type f) week_val month_val end_val d,
     <[id t := false]> editing,
     [Success "Task updated!"])
  else (d, editing, [Error_notice "Title is required"]).

(** The recurrence fields of a row fit its type: an end date for One-time
    only, a day of the month for Monthly only, week days for Weekly only. *)
Definition fields_fit_type (t : task) : Prop :=
  (end_date t <> None <-> task_type t = One_time)
  /\ (monthly_date t <> None <-> task_type t = Monthly)
  /\ (task_type t <> Weekly -> week_days t = Some ""%string).

(** ** Calendar dates *)

(** The dates [today + timedelta(days=x)] for [x] in [range(15)], when they
    all exist. *)
Definition next_15_days (today : date) : list date :=
  (fun x => fromordinal (toordinal today + Z.of_nat x)) <$> seq 0 15.

(** ** Reminders *)

(** What the database part of a function gives, from [get_db_connection()]
    to [conn.close()]: the database its statements read, or the error that
    the connector raises on the way.  Nothing is caught there, so the error
    is the function's. *)
Definition connection : Type := result db.

(** The list [pending_today] that [send_evening_reminder] collects with its
    four queries, each with [AND status = "Pending"]. *)
Definition pending_today (today : date) (rows : list task) : list task :=
  let one_time_tasks :=
    List.filter
      (fun t => Sql.holds
                  (Sql.and3 (Sql.and3 (Sql.eq3 (Some (task_type t)) One_time)
                                      (Sql.eq3 (end_date t) today))
                            (Sql.eq3 (Some (status t)) Pending))) rows in
  let daily_tasks :=
    List.filter
      (fun t => Sql.holds (Sql.and3 (Sql.eq3 (Some (task_type t)) Daily)
                                    (Sql.eq3 (Some (status t)) Pending))) rows in
  let day_name := strftime_A today in
  let weekly_tasks :=
    List.filter
      (fun t => Sql.holds (Sql.and3 (Sql.eq3 (Some (task_type t)) Weekly)
                                    (Sql.eq3 (Some (status t)) Pending))) rows in
  let day_of_month := day today in
  let monthly_tasks :=
    List.filter
      (fun t => Sql.holds
                  (Sql.and3 (Sql.and3 (Sql.eq3 (Some (task_type t)) Monthly)
                                      (Sql.eq3 (monthly_date t) day_of_month))
                            (Sql.eq3 (Some (status t)) Pending))) rows in
  one_time_tasks ++ daily_tasks
    ++ List.filter (weekly_on day_name) weekly_tasks ++ monthly_tasks.

(** The line feed. *)
Definition nl : string := String (ascii_of_nat 10) EmptyString.

(** A priority as the database returns it. *)
Definition priority_name (p : Priority) : string :=
  match p with Low => "Low" | Medium => "Medium" | High => "High" end.

(** The ten quotes of [generate_motivation_quote]. *)
Definition quotes : list string :=
  ["Small progress is still progress!";
   "Your future self will thank you for what you do today.";
   "The secret of getting ahead is getting started.";
   "Focus on progress, not perfection.";
   "Each task completed is a step forward.";
   "Discipline is choosing between what you want now and what you want most.";
   "The only way to do great work is to love what you do.";
   "Your productivity determines your impact.";
   "The best way to predict the future is to create it.";
   "Success is the sum of small efforts repeated day in and day out."]%string.

(** [generate_motivation_quote()]; [rnd] is the index [random.choice]
    draws. *)
Definition generate_motivation_quote (rnd : nat) : string :=
  nth (rnd mod 10) quotes ""%string.

(** One numbered line of a reminder: [f"{i}. {title} ({priority})\n"]. *)
Definition task_line (i : nat) (t : task) : string :=
  pretty i +:+ ". " +:+ title t +:+ " (" +:+ priority_name (priority t) +:+ ")" +:+ nl.

(** The loop [for i, task in enumerate(l, 1)] of the reminders, from index
    [i] on: a line for each of the first five, one line for the rest at the
    sixth, where the loop breaks. *)
Fixpoint task_lines (total : nat) (i : nat) (l : list task) : string :=
  match l with
  | [] => ""
  | t :: l' =>
      if (i <=? 5)%nat then task_line i t +:+ task_lines total (S i) l'
      else if (i =? 6)%nat then
        "...and " +:+ pretty (Z.of_nat total - 5) +:+ " more" +:+ nl
      else task_lines total (S i) l'
  end.

(** The message of [send_evening_reminder]. *)
Definition evening_message (rnd : nat) (pending : list task) : string :=
  "Evening Reminder: You have " +:+ pretty (length pending)
    +:+ " pending tasks for today:" +:+ nl +:+ nl
    +:+ task_lines (length pending) 1 pending
    +:+ nl +:+ generate_motivation_quote rnd.

(** [send_evening_reminder()] on [today = date.today()]. *)
Definition send_evening_reminder (w : world) (rnd : nat) (today : date)
    (conn : connection) : io (bool * string) :=
  d <- io_lift conn ;;
  let pending := pending_today today (tasks d) in
  match pending with
  | [] => io_ret (true, "No pending tasks"%string)
  | _ => send_sms w (evening_message rnd pending)
  end.

(** [s[:n]] *)
Definition str_take (n : nat) (s : string) : string := String.substring 0 n s.

(** The message of [send_task_reminder]. *)
Definition reminder_message (t : task) : string :=
  let body :=
    "REMINDER: " +:+ title t +:+ nl
      +:+ "Priority: " +:+ priority_name (priority t) +:+ nl in
  if PyStr.truthy (description t) then
    let body := body +:+ "Details: " +:+ str_take 100 (description t) in
    if (100 <? String.length (description t))%nat then body +:+ "..." else body
  else body.

(** [send_task_reminder(task_id)] *)
Definition send_task_reminder (w : world) (task_id : Z) (conn : connection)
    : io (bool * string) :=
  d <- io_lift conn ;;
  match List.find (fun t => id t =? task_id) (tasks d) with
  | None => io_ret (false, "Task not found"%string)
  | Some t => send_sms w (reminder_message t)
  end.

(** ** Notification settings *)





(** ** The list view *)

(** [c.lower()] for one code point below 256: the letters A to Z and the
    accented capitals, without the multiplication sign. *)
Definition lower_char (c : ascii) : ascii :=
  let n := nat_of_ascii c in
  if ((65 <=? n) && (n <=? 90)
      || (192 <=? n) && (n <=? 222) && negb (n =? 215))%nat
  then ascii_of_nat (n + 32) else c.

(** [s.lower()] *)
Fixpoint lower (s : string) : string :=
  match s with
  | EmptyString => EmptyString
  | String c r => String (lower_char c) (lower r)
  end.

(** [sub in s] *)
Fixpoint contains (sub s : string) : bool :=
  String.prefix sub s
  || match s with
     | EmptyString => false
     | String _ r => contains sub r
     end.

(** The sort key of the list view:
    [(status == 'Completed', {"High": 0, "Medium": 1, "Low": 2}[priority],
    title)]. *)
Definition priority_rank (p : Priority) : Z :=
  match p with High => 0 | Medium => 1 | Low => 2 end.

Definition sort_key (t : task) : bool * Z * string :=
  (bool_decide (status t = Completed), priority_rank (priority t), title t).

(** Keys are compared as tuples: by the first component that differs, with
    [False < True] and strings by code point. *)
Definition key_leb (k1 k2 : bool * Z * string) : bool :=
  let '(c1, r1, t1) := k1 in
  let '(c2, r2, t2) := k2 in
  if negb (Bool.eqb c1 c2) then negb c1
  else if negb (r1 =? r2) then r1 <? r2
  else String.leb t1 t2.

(** [sorted(l, key=sort_key)]: the sort is stable, so it is the insertion of
    each task, from the last to the first, before the first task whose key
    is not smaller. *)
Fixpoint insert_by_key (t : task) (l : list task) : list task :=
  match l with
  | [] => [t]
  | u :: l' =>
      if key_leb (sort_key t) (sort_key u) then t :: u :: l'
      else u :: insert_by_key t l'
  end.

Definition sorted_by_key (l : list task) : list task :=
  foldr insert_by_key [] l.

(** The status filter of the list view: [None] is "All". *)
Definition list_view (search : string) (status_filter : option Status)
    (tasks : list task) : list task :=
  let filtered := tasks in
  let filtered :=
    if PyStr.truthy search
    then List.filter (fun t => contains (lower search) (lower (title t))) filtered
    else filtered in
  let filtered :=
    match status_filter with
    | Some st => List.filter (fun t => bool_decide (status t = st)) filtered
    | None => filtered
    end in
  sorted_by_key filtered.

(** The order of the sort keys, on tasks. *)
Definition key_le (t u : task) : Prop :=
  key_leb (sort_key t) (sort_key u) = true.

(** ** What the columns hold *)

(** The columns of [tasks] that the forms write text or a number to, as
    [create_table] declares them: [title VARCHAR(255)], [description TEXT]
    (65535 bytes, and a character below code point 256 takes at most two),
    [week_days VARCHAR(50)] and [monthly_date INT].  A value that fits is
    stored as it is given, which is what [add_task] and [edit_task]
    describe; one that does not is refused or cut by the server, depending
    on its mode. *)
Definition fits_tasks_columns (title desc week_days : string)
    (monthly_date : option Z) : Prop :=
  Z.of_nat (String.length title) <= 255
  /\ Z.of_nat (String.length desc) <= 32767
  /\ Z.of_nat (String.length week_days) <= 50
  /\ match monthly_date with
     | Some n => - 2147483648 <= n <= 2147483647
     | None => True
     end.




(** ** The dashboard: the week's tasks and the priority chart *)

(** The tasks of the current week, for the "This Week" metric of the
    dashboard in [main]: One-time tasks due from Monday to Sunday, and all
    recurring tasks. *)
Definition week_tasks (today : date) (tasks : list task) : result (list task) :=
  start_of_week <-! sub_days today (weekday today);
  end_of_week <-! add_days start_of_week 6;
  Ok (List.filter
        (fun t =>
           (bool_decide (task_type t = One_time)
            && match end_date t with
               | Some e => PyDate.leb start_of_week e && PyDate.leb e end_of_week
               | None => false
               end)
           || is_recurring t)
        tasks).

(** The metric itself: completed and total. *)
Definition this_week (today : date) (tasks : list task) : result (Z * Z) :=
  l <-! week_tasks today tasks;
  let completed :=
    Z.of_nat (length (List.filter (fun t => bool_decide (status t = Completed)) l)) in
  let total := Z.of_nat (length l) in
  Ok (completed, total).

(** The bars of the "Tasks by Priority" chart in [main]: the completed
    tasks of each priority, as (High, Medium, Low). *)
Definition priority_counts (tasks : list task) : Z * Z * Z :=
  foldl (fun '(high, medium, low) t =>
           if bool_decide (status t = Completed) then
             match priority t with
             | High => (high + 1, medium, low)
             | Medium => (high, medium + 1, low)
             | Low => (high, medium, low + 1)
             end
           else (high, medium, low))
        (0, 0, 0) tasks.

(** * The embedding on concrete inputs *)

Example fromordinal_first : fromordinal 1 = Date 1 1 1.
Proof. reflexivity. Qed.
Example toordinal_2025_04_22 : toordinal (Date 2025 4 22) = 739363.
Proof. reflexivity. Qed.
Example fromordinal_2025_04_22 : fromordinal 739363 = Date 2025 4 22.
Proof. reflexivity. Qed.
Example strftime_2025_04_22 : strftime_A (Date 2025 4 22) = "Tuesday"%string.
Proof. reflexivity. Qed.
Example toordinal_max : toordinal (Date 9999 12 31) = MAXORDINAL.
Proof. reflexivity. Qed.
Example fromordinal_leap_day :
  fromordinal (toordinal (Date 2024 2 29)) = Date 2024 2 29.
Proof. reflexivity. Qed.
Example fromordinal_end_of_cycle : fromordinal 146097 = Date 400 12 31.
Proof. reflexivity. Qed.
Example add_days_over_new_year : add_days (Date 2024 12 30) 3 = Ok (Date 2025 1 2).
Proof. reflexivity. Qed.
Example monthly_window_february :
  period_window Monthly_goal (Date 2024 2 10) = Ok (Date 2024 2 1, Date 2024 2 29).
Proof. reflexivity. Qed.
Example weekly_window_thursday :
  period_window Weekly_goal (Date 2025 4 24) = Ok (Date 2025 4 21, Date 2025 4 27).
Proof. reflexivity. Qed.
Example split_days :
  PyStr.split "," "Monday,Wednesday" = ["Monday"; "Wednesday"]%string.
Proof. reflexivity. Qed.
Example split_empty : PyStr.split "," "" = [""%string].
Proof. reflexivity. Qed.
Example strip_both_ends : PyStr.strip "  ab c  " = "ab c"%string.
Proof. reflexivity. Qed.
Example send_sms_service_down :
  send_sms service_down "hi" []
  = (Ok (false, "HTTP 503 error: Unable to create record"%string),
     [Message_create "hi" "+12345678" "+12345678";
      Printed "Error sending SMS: HTTP 503 error: Unable to create record"]).
Proof. reflexivity. Qed.
Example calendar_without_end_dates :
  create_calendar_view (Date 2025 4 23) [daily_walk]
  = Ok (Calendar_info "No tasks with due dates to display.").
Proof. reflexivity. Qed.

Example evening_message_ex :
  evening_message 0 [done_tomorrow]
  = ("Evening Reminder: You have 1 pending tasks for today:" +:+ nl +:+ nl
     +:+ "1. Stretch (Low)" +:+ nl +:+ nl
     +:+ "Small progress is still progress!")%string.
Proof. reflexivity. Qed.
Example contains_ex : contains "ilk" (lower "Buy MILK") = true.
Proof. reflexivity. Qed.
Example contains_empty : contains "" "" = true.
Proof. reflexivity. Qed.

(** * Facts about dates *)

(** Checked on each of the 365 days, for both kinds of year. *)
Lemma month_day_ok_all leapyear n :
  0 <= n < 365 -> month_day_ok leapyear n = true.
Proof.
  intros Hn.
  assert (H : forallb (fun n => month_day_ok true n && month_day_ok false n)
                (seqZ 0 365) = true) by (vm_compute; reflexivity).
  rewrite forallb_forall in H.
  specialize (H n). rewrite <- list_elem_of_In, elem_of_seqZ in H.
  apply andb_true_iff in H; [|lia].
  destruct leapyear; tauto.
Qed.

Lemma ord2ymd_unfold n :
  ord2ymd n =
    let n0 := n - 1 in
    let n400 := n0 / 146097 in
    let r1 := n0 mod 146097 in
    let n100 := r1 / 36524 in
    let r2 := r1 mod 36524 in
    let n4 := r2 / 1461 in
    let r3 := r2 mod 1461 in
    let n1 := r3 / 365 in
    let r4 := r3 mod 365 in
    let y := n400 * 400 + 1 + n100 * 100 + n4 * 4 + n1 in
    if (n1 =? 4) || (n100 =? 4) then Date (y - 1) 12 31
    else
      let leapyear := (n1 =? 3) && (negb (n4 =? 24) || (n100 =? 3)) in
      let '(m, d) := month_day leapyear r4 in Date y m d.
Proof.
  unfold ord2ymd, month_day, DI400Y, DI100Y, DI4Y. cbv zeta.
  destruct (_ || _); [reflexivity|].
  destruct (_ <? _); reflexivity.
Qed.

Lemma is_leap_spec y :
  is_leap y = true <-> y mod 4 = 0 /\ (y mod 100 <> 0 \/ y mod 400 = 0).
Proof.
  unfold is_leap.
  rewrite andb_true_iff, orb_true_iff, negb_true_iff, !Z.eqb_eq, Z.eqb_neq.
  reflexivity.
Qed.

(** The ordinal of the last day before year [400a + 100b + 4c + e + 1]. *)
Lemma days_before_year_split a b c e :
  0 <= b <= 3 -> 0 <= c <= 24 -> 0 <= e <= 3 ->
  days_before_year (a * 400 + 1 + b * 100 + c * 4 + e)
  = 146097 * a + 36524 * b + 1461 * c + 365 * e.
Proof.
  intros Hb Hc He. unfold days_before_year. cbv zeta.
  Z.div_mod_to_equations. lia.
Qed.

Lemma is_leap_split a b c e :
  0 <= b <= 3 -> 0 <= c <= 24 -> 0 <= e <= 3 ->
  is_leap (a * 400 + 1 + b * 100 + c * 4 + e)
  = (e =? 3) && (negb (c =? 24) || (b =? 3)).
Proof.
  intros Hb Hc He.
  apply eq_true_iff_eq.
  rewrite is_leap_spec, andb_true_iff, orb_true_iff, negb_true_iff,
    !Z.eqb_eq, Z.eqb_neq.
  Z.div_mod_to_equations. lia.
Qed.

Lemma valid_spec d :
  valid d = true <->
  1 <= year d <= 9999 /\ 1 <= month d <= 12
  /\ 1 <= day d <= days_in_month (year d) (month d).
Proof.
  unfold valid, check_date_fields, MINYEAR, MAXYEAR.
  rewrite !andb_true_iff, !Z.leb_le. tauto.
Qed.

(** Splits [n - 1] into 400-year cycles, centuries, 4-year cycles, years and
    days, as [ord2ymd] does. *)
Ltac split_ordinal n a b c e r4 :=
  let n0 := fresh "n0" in
  let r1 := fresh "r1" in let r2 := fresh "r2" in let r3 := fresh "r3" in
  set (n0 := n - 1);
  pose proof (Z.div_mod n0 146097 ltac:(lia));
  pose proof (Z.mod_pos_bound n0 146097 ltac:(lia));
  set (a := n0 / 146097) in *; set (r1 := n0 mod 146097) in *;
  pose proof (Z.div_mod r1 36524 ltac:(lia));
  pose proof (Z.mod_pos_bound r1 36524 ltac:(lia));
  set (b := r1 / 36524) in *; set (r2 := r1 mod 36524) in *;
  pose proof (Z.div_mod r2 1461 ltac:(lia));
  pose proof (Z.mod_pos_bound r2 1461 ltac:(lia));
  set (c := r2 / 1461) in *; set (r3 := r2 mod 1461) in *;
  pose proof (Z.div_mod r3 365 ltac:(lia));
  pose proof (Z.mod_pos_bound r3 365 ltac:(lia));
  set (e := r3 / 365) in *; set (r4 := r3 mod 365) in *;
  clearbody a r1 b r2 c r3 e r4; subst n0;
  assert (0 <= b <= 4) by lia;
  assert (0 <= c <= 24) by lia;
  assert (0 <= e <= 4) by lia.

(** [date.fromordinal(n).toordinal() == n] *)
Lemma toordinal_fromordinal n : toordinal (fromordinal n) = n.
Proof.
  unfold fromordinal. rewrite ord2ymd_unfold. cbv zeta.
  split_ordinal n a b c e r4.
  destruct (Z.eqb_spec e 4) as [-> | He4]; simpl orb.
  - unfold toordinal, ymd2ord. simpl year; simpl month; simpl day.
    replace (a * 400 + 1 + b * 100 + c * 4 + 4 - 1)
      with (a * 400 + 1 + b * 100 + c * 4 + 3) by lia.
    unfold days_before_month.
    rewrite days_before_year_split, is_leap_split by lia.
    destruct (Z.eqb_spec c 24); [lia|]. simpl.
    change (index DAYS_BEFORE_MONTH 12) with 334. lia.
  - destruct (Z.eqb_spec b 4) as [-> | Hb4].
    + unfold toordinal, ymd2ord. simpl year; simpl month; simpl day.
      assert (c = 0 /\ e = 0 /\ r4 = 0) as (-> & -> & ->) by lia.
      replace (a * 400 + 1 + 4 * 100 + 0 * 4 + 0 - 1)
        with (a * 400 + 1 + 3 * 100 + 24 * 4 + 3) by lia.
      unfold days_before_month.
      rewrite days_before_year_split, is_leap_split by lia.
      simpl. change (index DAYS_BEFORE_MONTH 12) with 334. lia.
    + pose proof (month_day_ok_all
                    ((e =? 3) && (negb (c =? 24) || (b =? 3))) r4
                    ltac:(assumption)) as Hmd.
      unfold month_day_ok in Hmd.
      destruct (month_day _ r4) as [m d].
      unfold toordinal, ymd2ord. simpl year; simpl month; simpl day.
      unfold days_before_month.
      rewrite days_before_year_split, is_leap_split by lia.
      rewrite !andb_true_iff in Hmd. destruct Hmd as [_ Hmd].
      apply Z.eqb_eq in Hmd. lia.
Qed.

(** An ordinal in range is the ordinal of a date. *)
Lemma fromordinal_valid n :
  1 <= n <= MAXORDINAL -> valid (fromordinal n) = true.
Proof.
  unfold MAXORDINAL. intros Hn.
  unfold fromordinal. rewrite ord2ymd_unfold. cbv zeta.
  split_ordinal n a b c e r4.
  assert (0 <= a <= 24) by lia.
  destruct (Z.eqb_spec e 4) as [-> | He4]; simpl orb.
  - apply valid_spec. simpl year; simpl month; simpl day.
    replace (a * 400 + 1 + b * 100 + c * 4 + 4 - 1)
      with (a * 400 + 1 + b * 100 + c * 4 + 3) by lia.
    unfold days_in_month. change (12 =? 2) with false. simpl andb.
    change (index DAYS_IN_MONTH 12) with 31. lia.
  - destruct (Z.eqb_spec b 4) as [-> | Hb4].
    + apply valid_spec. simpl year; simpl month; simpl day.
      unfold days_in_month. change (12 =? 2) with false. simpl andb.
      change (index DAYS_IN_MONTH 12) with 31. lia.
    + pose proof (month_day_ok_all
                    ((e =? 3) && (negb (c =? 24) || (b =? 3))) r4
                    ltac:(assumption)) as Hmd.
      unfold month_day_ok in Hmd.
      destruct (month_day _ r4) as [m d].
      apply valid_spec. simpl year; simpl month; simpl day.
      unfold days_in_month. rewrite is_leap_split by lia.
      rewrite !andb_true_iff, !Z.leb_le in Hmd. lia.
Qed.

Lemma days_before_year_succ y :
  days_before_year (y + 1)
  = days_before_year y + 365 + (if is_leap y then 1 else 0).
Proof.
  unfold days_before_year. cbv zeta.
  destruct (is_leap y) eqn:E.
  - apply is_leap_spec in E. Z.div_mod_to_equations. lia.
  - assert (N : ~ (y mod 4 = 0 /\ (y mod 100 <> 0 \/ y mod 400 = 0))).
    { rewrite <- is_leap_spec. congruence. }
    Z.div_mod_to_equations. lia.
Qed.

Lemma days_before_year_mono y1 y2 :
  y1 <= y2 -> days_before_year y1 <= days_before_year y2.
Proof.
  intros H. unfold days_before_year. cbv zeta.
  Z.div_mod_to_equations. lia.
Qed.

Ltac month_cases m :=
  let H := fresh in
  assert (H : m = 1 \/ m = 2 \/ m = 3 \/ m = 4 \/ m = 5 \/ m = 6 \/ m = 7
              \/ m = 8 \/ m = 9 \/ m = 10 \/ m = 11 \/ m = 12) by lia;
  repeat (destruct H as [H | H]; [subst m|]); [..|subst m].

Lemma days_before_month_next y m1 m2 :
  1 <= m1 -> m1 < m2 -> m2 <= 12 ->
  days_before_month y m1 + days_in_month y m1 <= days_before_month y m2.
Proof.
  intros H1 H2 H3. unfold days_before_month, days_in_month.
  destruct (is_leap y);
    month_cases m1; month_cases m2; try lia; vm_compute; discriminate.
Qed.

Lemma days_before_month_bounds y m :
  1 <= m <= 12 ->
  0 <= days_before_month y m
  /\ days_before_month y m + days_in_month y m
     <= 365 + (if is_leap y then 1 else 0).
Proof.
  intros H. unfold days_before_month, days_in_month.
  destruct (is_leap y); month_cases m; vm_compute; split; discriminate.
Qed.

Lemma toordinal_range d :
  valid d = true -> 1 <= toordinal d <= MAXORDINAL.
Proof.
  rewrite valid_spec. intros (Hy & Hm & Hd).
  unfold toordinal, ymd2ord.
  pose proof (days_before_month_bounds (year d) (month d) Hm) as [B1 B2].
  pose proof (days_before_year_mono 1 (year d) ltac:(lia)) as M1.
  pose proof (days_before_year_mono (year d + 1) 10000 ltac:(lia)) as M2.
  rewrite days_before_year_succ in M2.
  change (days_before_year 1) with 0 in M1.
  change (days_before_year 10000) with 3652059 in M2.
  unfold MAXORDINAL. lia.
Qed.

(** The order on dates is the order of their ordinals. *)
Lemma toordinal_lt d1 d2 :
  valid d1 = true -> valid d2 = true ->
  PyDate.ltb d1 d2 = true -> toordinal d1 < toordinal d2.
Proof.
  rewrite !valid_spec. intros (Hy1 & Hm1 & Hd1) (Hy2 & Hm2 & Hd2).
  unfold PyDate.ltb, toordinal, ymd2ord.
  repeat (rewrite ?orb_true_iff, ?andb_true_iff, ?Z.ltb_lt, ?Z.eqb_eq).
  pose proof (days_before_month_bounds (year d1) (month d1) Hm1) as [B1 B2].
  pose proof (days_before_month_bounds (year d2) (month d2) Hm2) as [B3 B4].
  intros [Hy | [Ey [Hm | [Em Hd]]]].
  - pose proof (days_before_year_mono (year d1 + 1) (year d2) ltac:(lia)) as M.
    rewrite days_before_year_succ in M. lia.
  - rewrite Ey in *.
    pose proof (days_before_month_next (year d2) (month d1) (month d2)
                  ltac:(lia) Hm ltac:(lia)). lia.
  - rewrite Ey, Em. lia.
Qed.

Lemma ltb_total d1 d2 :
  PyDate.ltb d1 d2 = true \/ d1 = d2 \/ PyDate.ltb d2 d1 = true.
Proof.
  destruct d1 as [y1 m1 d1], d2 as [y2 m2 d2]. unfold PyDate.ltb. simpl.
  repeat (rewrite ?orb_true_iff, ?andb_true_iff, ?Z.ltb_lt, ?Z.eqb_eq).
  destruct (Z.lt_trichotomy y1 y2) as [?|[->|?]]; [tauto| |tauto].
  destruct (Z.lt_trichotomy m1 m2) as [?|[->|?]]; [tauto| |tauto].
  destruct (Z.lt_trichotomy d1 d2) as [?|[->|?]]; tauto.
Qed.

Lemma ltb_toordinal d1 d2 :
  valid d1 = true -> valid d2 = true ->
  PyDate.ltb d1 d2 = true <-> toordinal d1 < toordinal d2.
Proof.
  intros V1 V2. split; [by apply toordinal_lt|].
  intros H. destruct (ltb_total d1 d2) as [?|[->|L]]; [done|lia|].
  apply toordinal_lt in L; [lia|done..].
Qed.

Lemma leb_toordinal d1 d2 :
  valid d1 = true -> valid d2 = true ->
  PyDate.leb d1 d2 = true <-> toordinal d1 <= toordinal d2.
Proof.
  intros V1 V2. unfold PyDate.leb. rewrite negb_true_iff.
  pose proof (ltb_toordinal d2 d1 V2 V1).
  destruct (PyDate.ltb d2 d1); [|split; [|done]].
  - split; [done|]. intros. assert (toordinal d2 < toordinal d1) by tauto. lia.
  - intros _. apply Z.le_ngt. intros L. apply H in L. done.
Qed.

Lemma toordinal_inj d1 d2 :
  valid d1 = true -> valid d2 = true ->
  toordinal d1 = toordinal d2 -> d1 = d2.
Proof.
  intros V1 V2 E.
  destruct (ltb_total d1 d2) as [L|[->|L]]; [|done|];
    apply toordinal_lt in L; try done; lia.
Qed.

Lemma fromordinal_toordinal d :
  valid d = true -> fromordinal (toordinal d) = d.
Proof.
  intros V. apply toordinal_inj; [|done|apply toordinal_fromordinal].
  apply fromordinal_valid, toordinal_range, V.
Qed.

Lemma weekday_range d : 0 <= weekday d < 7.
Proof. unfold weekday. apply Z.mod_pos_bound. lia. Qed.

Lemma Ok_inj {A} (a b : A) : Ok a = Ok b -> a = b.
Proof. congruence. Qed.

Lemma add_days_ok d n :
  1 <= toordinal d + n <= MAXORDINAL ->
  add_days d n = Ok (fromordinal (toordinal d + n)).
Proof.
  intros H. unfold add_days. cbv zeta.
  destruct (Z.ltb_spec 0 (toordinal d + n)); [|lia].
  destruct (Z.leb_spec (toordinal d + n) MAXORDINAL); [done|lia].
Qed.

Lemma sub_days_ok d n :
  1 <= toordinal d - n <= MAXORDINAL ->
  sub_days d n = Ok (fromordinal (toordinal d - n)).
Proof.
  intros H. unfold sub_days. rewrite add_days_ok by lia.
  by rewrite Z.add_opp_r.
Qed.

Lemma add_days_inv d n d' :
  add_days d n = Ok d' ->
  1 <= toordinal d + n <= MAXORDINAL /\ d' = fromordinal (toordinal d + n).
Proof.
  unfold add_days. cbv zeta.
  destruct (Z.ltb_spec 0 (toordinal d + n)); [|done].
  destruct (Z.leb_spec (toordinal d + n) MAXORDINAL); [|done].
  intros E. apply Ok_inj in E. split; [lia|done].
Qed.

Lemma strftime_A_weekday d k :
  0 <= k < 7 ->
  strftime_A d = nth (Z.to_nat k) DAYNAMES ""%string <-> weekday d = k.
Proof.
  intros Hk. unfold strftime_A. pose proof (weekday_range d) as Hw.
  split; [|by intros ->].
  assert (W : weekday d = 0 \/ weekday d = 1 \/ weekday d = 2 \/ weekday d = 3
              \/ weekday d = 4 \/ weekday d = 5 \/ weekday d = 6) by lia.
  assert (K : k = 0 \/ k = 1 \/ k = 2 \/ k = 3 \/ k = 4 \/ k = 5 \/ k = 6) by lia.
  repeat (destruct W as [W | W]; [rewrite W|]); try rewrite W;
    repeat (destruct K as [K | K]; [rewrite K|]); try rewrite K;
    vm_compute; congruence.
Qed.

(** Going back [weekday] days from a day lands on a Monday, on or after
    day 1. *)
Lemma week_start o :
  1 <= o ->
  1 <= o - (o + 6) mod 7 <= o /\ (o - (o + 6) mod 7 + 6) mod 7 = 0.
Proof.
  intros Ho.
  pose proof (Z.div_mod (o + 6) 7 ltac:(lia)) as E.
  pose proof (Z.mod_pos_bound (o + 6) 7 ltac:(lia)) as B.
  set (q := (o + 6) / 7) in *. set (r := (o + 6) mod 7) in *. clearbody q r.
  split; [lia|].
  replace (o - r + 6) with (q * 7) by lia. apply Z.mod_mul. lia.
Qed.

(** * Toggling a task back to Pending *)

Lemma update_task_status_None_rows task_id st d :
  tasks (update_task_status task_id st None d)
  = (fun t => if id t =? task_id then set_status st t else t) <$> tasks d.
Proof. reflexivity. Qed.

(** C1: toggling a Completed task back to Pending calls
    [update_task_status] with status Pending and no completion date, which
    runs the UPDATE that sets the status alone: the row becomes Pending and
    keeps its last-completed and completed-at dates; they are not set to
    NULL. *)
Theorem toggle_back_keeps_completion_dates today t d :
  status t = Completed ->
  t ∈ tasks d ->
  toggle_status today t d = update_task_status (id t) Pending None d
  /\ set_status Pending t ∈ tasks (toggle_status today t d)
  /\ last_completed (set_status Pending t) = last_completed t
  /\ completed_at (set_status Pending t) = completed_at t.
Proof.
  intros Hs Hin. unfold toggle_status. rewrite Hs. simpl.
  repeat split.
  apply list_elem_of_fmap. exists t. rewrite Z.eqb_refl. done.
Qed.

Lemma toggle_back_keeps_completion_dates_witness :
  tasks (toggle_status (Date 2025 4 22) watering (Db [watering] 2 [] 1))
  = [Task 1 "Water the plants" "" Pending Medium Daily (Some ""%string) None None
       (Some (Date 2025 4 22)) (Some (Date 2025 4 22)) 0].
Proof.
  pose proof (toggle_back_keeps_completion_dates (Date 2025 4 22) watering
                (Db [watering] 2 [] 1) eq_refl ltac:(apply list_elem_of_here))
    as [E _].
  rewrite E. reflexivity.
Defined.

(** The "Reset" button of a recurring task makes the same call, and leaves
    the dates in place as well. *)
Lemma reset_keeps_completion_dates :
  tasks (update_task_status 1 Pending None (Db [watering] 2 [] 1))
  = [set_status Pending watering]
  /\ last_completed (set_status Pending watering) = Some (Date 2025 4 22).
Proof. split; reflexivity. Qed.

(** * The overdue metric *)

Lemma overdue_fold today tasks acc :
  foldl (fun overdue t =>
           if negb (bool_decide (status t = Pending)) then overdue
           else if bool_decide (task_type t = One_time) then
             match end_date t with
             | Some e => if PyDate.ltb e today then overdue + 1 else overdue
             | None => overdue
             end
           else
             match last_completed t with
             | None => overdue + 1
             | Some lc => if PyDate.ltb lc today then overdue + 1 else overdue
             end) acc tasks
  = acc + Z.of_nat (length (List.filter (overdue_when_before_today today) tasks)).
Proof.
  revert acc. induction tasks as [|t tasks IH]; intros acc; simpl; [lia|].
  rewrite IH. unfold overdue_when_before_today, is_recurring, due_before.
  destruct (status t), (task_type t), (end_date t) as [e|],
    (last_completed t) as [lc|]; simpl;
    repeat match goal with
           | |- context [PyDate.ltb ?a ?b] => destruct (PyDate.ltb a b)
           end;
    simpl; lia.
Qed.

(** C2, amended: the overdue metric of [task_stats] is the number of tasks
    that are Pending and either One-time with a due date strictly before
    today, or recurring with a last-completed date that is absent or
    strictly before today; each task adds one to the metric exactly when it
    is such a task, so a task that is not Pending never adds to it. *)
Theorem overdue_counts_tasks_behind_today today tasks :
  n_overdue (task_stats today tasks)
  = Z.of_nat (length (List.filter (overdue_when_before_today today) tasks))
  /\ forall t,
       n_overdue (task_stats today (tasks ++ [t]))
       = n_overdue (task_stats today tasks)
         + (if overdue_when_before_today today t then 1 else 0).
Proof.
  unfold task_stats. cbn [n_overdue]. split.
  - rewrite overdue_fold. lia.
  - intros t. rewrite !overdue_fold, List.filter_app, length_app. simpl.
    destruct (overdue_when_before_today today t); simpl; lia.
Qed.

(** C2 as stated fails: a Pending Daily task whose last-completed date is
    the day after today has a last-completed date that is not today, and
    the dashboard does not count it. *)
Lemma overdue_not_counted_after_today :
  status done_tomorrow = Pending
  /\ task_type done_tomorrow = Daily
  /\ last_completed done_tomorrow <> Some (Date 2025 4 22)
  /\ overdue_when_not_today (Date 2025 4 22) done_tomorrow = true
  /\ n_overdue (task_stats (Date 2025 4 22) [done_tomorrow]) = 0.
Proof. repeat split; discriminate. Qed.

(** * Tasks of the day *)

Lemma mem_elem_of x l : PyStr.mem x l = true <-> x ∈ l.
Proof.
  unfold PyStr.mem. rewrite existsb_exists, list_elem_of_In. split.
  - intros (y & Hy & E). apply String.eqb_eq in E. by subst.
  - intros H. exists x. split; [done|apply String.eqb_refl].
Qed.

Lemma strftime_A_truthy d : PyStr.truthy (strftime_A d) = true.
Proof.
  unfold strftime_A. pose proof (weekday_range d) as W.
  assert (H : weekday d = 0 \/ weekday d = 1 \/ weekday d = 2 \/ weekday d = 3
              \/ weekday d = 4 \/ weekday d = 5 \/ weekday d = 6) by lia.
  repeat (destruct H as [H | H]; [by rewrite H|]). by rewrite H.
Qed.

Lemma weekly_on_spec d t :
  weekly_on (strftime_A d) t = true
  <-> exists s, week_days t = Some s /\ strftime_A d ∈ PyStr.split "," s.
Proof.
  unfold weekly_on. destruct (week_days t) as [s|].
  - rewrite andb_true_iff, mem_elem_of. split.
    + intros [_ H]. eauto.
    + intros (s' & [= <-] & H). split; [|done].
      destruct s; [|done]. simpl in H.
      apply list_elem_of_singleton in H.
      pose proof (strftime_A_truthy d) as T. by rewrite H in T.
  - split; [done|]. by intros (? & ? & _).
Qed.

Lemma eq3_holds {A} `{EqDecision A} (col : option A) (v : A) :
  Sql.holds (Sql.eq3 col v) = true <-> col = Some v.
Proof.
  destruct col as [x|]; simpl; [|done].
  case_bool_decide; simpl; split; congruence.
Qed.

Lemma and3_holds a b :
  Sql.holds (Sql.and3 a b) = true
  <-> Sql.holds a = true /\ Sql.holds b = true.
Proof. destruct a as [[]|], b as [[]|]; simpl; intuition congruence. Qed.

Lemma tasks_today_spec today rows t :
  t ∈ tasks_today today rows <-> t ∈ rows /\ active_today today t.
Proof.
  unfold tasks_today, active_today. cbv zeta.
  rewrite !elem_of_app, !list_elem_of_In, !filter_In, !and3_holds, !eq3_holds,
    weekly_on_spec.
  split.
  - intros [(? & [= ?] & ?) | [(? & [= ?]) | [((? & [= ?]) & ?) | (? & [= ?] & ?)]]];
      tauto.
  - intros (Hin & [(-> & ->) | [-> | [(-> & ?) | (-> & ->)]]]); tauto.
Qed.

(** C3: a task is in the list [send_daily_summary] collects for a reference
    date exactly when it is a row of the table and it is One-time with that
    due date, or Daily, or Weekly with the date's weekday name among its
    comma-separated week days, or Monthly with the date's day of the month;
    a Weekly task with days "Monday,Wednesday" is in it exactly on a Monday
    or a Wednesday. *)
Theorem tasks_today_are_the_active_tasks today rows :
  (forall t, t ∈ tasks_today today rows <-> t ∈ rows /\ active_today today t)
  /\ (forall i ti de st pr md ed lc ca cr,
        let t := Task i ti de st pr Weekly (Some "Monday,Wednesday"%string)
                      md ed lc ca cr in
        t ∈ tasks_today today rows
        <-> t ∈ rows /\ (strftime_A today = "Monday"%string
                         \/ strftime_A today = "Wednesday"%string)).
Proof.
  split; [apply tasks_today_spec|].
  intros i ti de st pr md ed lc ca cr t.
  rewrite tasks_today_spec. unfold active_today. subst t. simpl.
  split.
  - intros (Hin & [(? & _) | [? | [(_ & s & [= <-] & H) | (? & _)]]]); try done.
    split; [done|].
    change (PyStr.split "," "Monday,Wednesday")
      with ["Monday"; "Wednesday"]%string in H.
    rewrite !elem_of_cons, elem_of_nil in H. tauto.
  - intros (Hin & H). split; [done|]. right; right; left. split; [done|].
    eexists; split; [done|].
    change (PyStr.split "," "Monday,Wednesday")
      with ["Monday"; "Wednesday"]%string.
    rewrite !elem_of_cons. tauto.
Qed.

(** * Calendar cells *)

Section calendar_cells.
(** Every task of every cell satisfies [Q] for the date of the cell. *)
Variable Q : date -> task -> Prop.

Let cells_ok (m : gmap date (list task)) : Prop :=
  forall d l, m !! d = Some l -> forall t, t ∈ l -> Q d t.

Lemma cells_ok_init (l : list date) :
  cells_ok (list_to_map ((fun d : date => (d, [])) <$> l)).
Proof.
  intros d c H t Ht. apply elem_of_list_to_map_2 in H.
  apply list_elem_of_fmap in H as (d' & [= -> ->] & _).
  by apply elem_of_nil in Ht.
Qed.

Lemma cells_ok_append t d m :
  cells_ok m -> Q d t -> cells_ok (append_at t d m).
Proof.
  intros Hm Hq d' l H t' Ht'. unfold append_at in H.
  rewrite lookup_alter in H. case_decide as E.
  - subst d'. destruct (m !! d) as [l0|] eqn:E0; [|done].
    simpl in H. injection H as <-.
    apply elem_of_app in Ht' as [Ht'|Ht']; [by eapply Hm|].
    apply list_elem_of_singleton in Ht'. by subst.
  - by eapply Hm.
Qed.

Lemma cells_ok_foldl (c : date -> bool) t (range : list date) m :
  cells_ok m -> (forall d, c d = true -> Q d t) ->
  cells_ok (foldl (fun m d => if c d then append_at t d m else m) m range).
Proof.
  intros Hm Hc. revert m Hm.
  induction range as [|d range IH]; intros m Hm; simpl; [done|].
  apply IH. destruct (c d) eqn:E; [|done].
  apply cells_ok_append; auto.
Qed.

Lemma cells_ok_place range m t :
  cells_ok m -> (forall d, shown_on d t = true -> Q d t) ->
  cells_ok (place range m t).
Proof.
  intros Hm Hq. unfold place. unfold shown_on in Hq.
  destruct (task_type t).
  - destruct (end_date t) as [e|]; [|done].
    case_bool_decide; [|done].
    apply cells_ok_append; [done|]. apply Hq. by apply bool_decide_eq_true_2.
  - apply (cells_ok_foldl (fun _ => true)); auto.
  - unfold weekly_on in Hq. destruct (week_days t) as [s|]; [|done].
    destruct (PyStr.truthy s); [|done].
    apply (cells_ok_foldl (fun d => PyStr.mem (strftime_A d) (PyStr.split "," s))); auto.
  - destruct (monthly_date t) as [md|]; [|done].
    destruct (negb (md =? 0)); [|done].
    apply (cells_ok_foldl (fun d => day d =? md)); auto.
Qed.

Lemma cells_ok_places range (active : list task) m :
  cells_ok m ->
  (forall t d, t ∈ active -> shown_on d t = true -> Q d t) ->
  cells_ok (foldl (place range) m active).
Proof.
  revert m. induction active as [|t active IH]; intros m Hm Hq; simpl; [done|].
  apply IH.
  - apply cells_ok_place; [done|]. intros d. apply Hq, list_elem_of_here.
  - intros t' d Ht'. apply Hq. by apply list_elem_of_further.
Qed.
End calendar_cells.

Lemma mapM_Ok {A B} (f : A -> result B) l l' :
  mapM f l = Ok l' -> forall b, b ∈ l' -> exists a, a ∈ l /\ f a = Ok b.
Proof.
  revert l'. induction l as [|a l IH]; intros l'; simpl.
  - intros E. apply Ok_inj in E. subst. intros b Hb. by apply elem_of_nil in Hb.
  - destruct (f a) as [b0|] eqn:Ea; [|done]. cbn [rbind].
    destruct (mapM f l) as [bs|] eqn:El; [|done]. cbn [rbind].
    intros E. apply Ok_inj in E. subst. intros b Hb.
    apply elem_of_cons in Hb as [->|Hb].
    + exists a. split; [apply list_elem_of_here|done].
    + destruct (IH bs eq_refl b Hb) as (a' & Ha' & Ef).
      exists a'. split; [by apply list_elem_of_further|done].
Qed.

Lemma weeks_of_elem {A} (l week : list A) x :
  week ∈ weeks_of l -> x ∈ week -> x ∈ l.
Proof.
  unfold weeks_of. intros Hw Hx.
  apply list_elem_of_fmap in Hw as (k & -> & _).
  by apply subseteq_take, subseteq_drop in Hx.
Qed.

(** What a task in a cell of the calendar grid satisfies. *)
Lemma calendar_cell today tasks weeks week d cell t :
  create_calendar_view today tasks = Ok (Calendar_grid weeks) ->
  week ∈ weeks -> (d, cell) ∈ week -> t ∈ cell ->
  t ∈ tasks /\ end_date t <> None /\ shown_on d t = true
  /\ exists x, 0 <= x < 15 /\ add_days today x = Ok d.
Proof.
  unfold create_calendar_view. cbv zeta.
  set (active := List.filter _ tasks).
  destruct active as [|t0 active'] eqn:Eactive; [done|].
  rewrite <- Eactive. clear Eactive t0 active'.
  destruct (mapM _ (seq 0 15)) as [date_range|] eqn:Erange; [|done].
  cbn [rbind]. intros E Hweek Hcell Ht.
  apply Ok_inj in E. injection E as <-.
  apply list_elem_of_fmap in Hweek as (week0 & -> & Hweek0).
  apply list_elem_of_fmap in Hcell as (d0 & [= -> ->] & Hd0).
  pose proof (weeks_of_elem _ _ _ Hweek0 Hd0) as Hd.
  pose proof (cells_ok_places
    (fun d t => t ∈ active /\ shown_on d t = true) date_range active _
    (cells_ok_init _ date_range) ltac:(done)) as Hcells.
  rewrite lookup_total_alt in Ht.
  destruct (_ !! d0) as [l|] eqn:El; simpl in Ht; [|by apply elem_of_nil in Ht].
  destruct (Hcells d0 l El t Ht) as [Hact Hshown].
  subst active. apply list_elem_of_In, filter_In in Hact as [Hin Hend].
  apply list_elem_of_In in Hin.
  repeat split; [done| |done|].
  - by destruct (end_date t).
  - destruct (mapM_Ok _ _ _ Erange d0 Hd) as (x & Hx & Ex).
    exists (Z.of_nat x). split; [|done].
    apply list_elem_of_In, in_seq in Hx. lia.
Qed.

(** * Monthly tasks on day 31 *)

Lemma day_le_days_in_month d :
  valid d = true -> day d <= days_in_month (year d) (month d).
Proof. rewrite valid_spec. lia. Qed.

(** C4: a Monthly task with day-of-month 31 is not among the tasks of the
    day on any date of a month with 30 days, and the calendar puts it in no
    cell of such a date: the day of the month is compared as it is, and is
    not moved to the last day of the month. *)
Theorem monthly_31_skips_30_day_months t :
  task_type t = Monthly -> monthly_date t = Some 31 ->
  (forall today rows,
     valid today = true ->
     days_in_month (year today) (month today) = 30 ->
     t ∉ tasks_today today rows)
  /\ (forall today tasks weeks week d cell,
        create_calendar_view today tasks = Ok (Calendar_grid weeks) ->
        week ∈ weeks -> (d, cell) ∈ week ->
        days_in_month (year d) (month d) = 30 ->
        t ∉ cell).
Proof.
  intros Hty Hmd. split.
  - intros today rows V H30 Hin.
    apply tasks_today_spec in Hin as [_ Hact].
    pose proof (day_le_days_in_month today V).
    destruct Hact as [[? _] | [? | [[? _] | [_ E]]]]; try congruence.
    rewrite Hmd in E. injection E as E. lia.
  - intros today tasks weeks week d cell Hview Hweek Hcell H30 Hin.
    destruct (calendar_cell _ _ _ _ _ _ _ Hview Hweek Hcell Hin)
      as (_ & _ & Hshown & x & Hx & Hadd).
    apply add_days_inv in Hadd as [Hrange ->].
    pose proof (day_le_days_in_month _ (fromordinal_valid _ Hrange)) as Hle.
    unfold shown_on in Hshown. rewrite Hty, Hmd in Hshown.
    apply andb_true_iff in Hshown as [_ Hday]. apply Z.eqb_eq in Hday. lia.
Qed.

Lemma monthly_31_skips_30_day_months_witness :
  days_in_month 2025 4 = 30 /\ rent ∉ tasks_today (Date 2025 4 30) [rent].
Proof.
  split; [reflexivity|].
  apply (proj1 (monthly_31_skips_30_day_months rent eq_refl eq_refl));
    reflexivity.
Defined.

(** On the 31st of a month that has one, the same task is active. *)
Example monthly_31_active_in_may :
  tasks_today (Date 2025 5 31) [rent] = [rent].
Proof. reflexivity. Qed.

(** * Tasks the calendar shows *)

(** C10: a task whose end date is NULL is in no cell of the calendar grid,
    whatever its type and whatever the date of the cell; so a Daily, Weekly
    or Monthly task without an end date is left out on the dates where it
    is among the tasks of the day as well. *)
Theorem calendar_leaves_out_tasks_without_end_date today tasks t :
  end_date t = None ->
  match create_calendar_view today tasks with
  | Ok (Calendar_grid weeks) =>
      forall week d cell, week ∈ weeks -> (d, cell) ∈ week -> t ∉ cell
  | Ok (Calendar_info _) | Raise _ => True
  end.
Proof.
  intros Hnone.
  destruct (create_calendar_view today tasks) as [[msg|weeks]|] eqn:E; try done.
  intros week d cell Hweek Hcell Hin.
  destruct (calendar_cell _ _ _ _ _ _ _ E Hweek Hcell Hin) as (_ & Hend & _).
  done.
Qed.

Lemma calendar_leaves_out_tasks_without_end_date_witness :
  daily_walk ∈ tasks_today (Date 2025 4 25) [daily_walk; dentist]
  /\ exists weeks,
       create_calendar_view (Date 2025 4 23) [daily_walk; dentist]
       = Ok (Calendar_grid weeks)
       /\ forall week d cell,
            week ∈ weeks -> (d, cell) ∈ week -> daily_walk ∉ cell.
Proof.
  split; [apply list_elem_of_In; vm_compute; tauto|].
  pose proof (calendar_leaves_out_tasks_without_end_date (Date 2025 4 23)
                [daily_walk; dentist] daily_walk eq_refl) as H.
  destruct (create_calendar_view (Date 2025 4 23) [daily_walk; dentist])
    as [[msg|weeks]|] eqn:E.
  - vm_compute in E. discriminate E.
  - exists weeks. split; [reflexivity|exact H].
  - vm_compute in E. discriminate E.
Defined.

(** * Goal progress *)

Lemma completed_between_spec s e t :
  completed_between s e t = completed_in_window s e t.
Proof.
  unfold completed_between, completed_in_window.
  destruct (status t), (completed_at t) as [c|]; simpl; try done.
  by destruct (PyDate.leb s c && PyDate.leb c e).
Qed.

Lemma filter_ext_eq {A} (f g : A -> bool) l :
  (forall x, f x = g x) -> List.filter f l = List.filter g l.
Proof. intros H. induction l as [|x l IH]; simpl; [done|]. by rewrite H, IH. Qed.





Example progress_3_of_5 :
  (q <-! truediv 3 5; Ok (py_min q 1%float)) = Ok 0x1.3333333333333p-1%float.
Proof. reflexivity. Qed.
Example progress_7_of_5 :
  (q <-! truediv 7 5; Ok (py_min q 1%float)) = Ok 1%float.
Proof. reflexivity. Qed.
Example progress_zero_target :
  truediv 3 0 = Raise (ZeroDivisionError "division by zero").
Proof. reflexivity. Qed.

(** * The weekly window *)

(** C6, amended: for every reference date up to 26 December 9999, the
    Weekly window that [save_goal] and [get_current_goal] compute starts on
    a Monday no later than the date and ends on the Sunday six days after
    that Monday, no earlier than the date; for a Thursday it runs from
    three days before to three days after.  [get_current_goal] looks up
    the row of that window and [save_goal] returns. *)
Theorem weekly_window_monday_to_sunday today :
  valid today = true ->
  PyDate.leb today (Date 9999 12 26) = true ->
  exists s e,
    period_window Weekly_goal today = Ok (s, e)
    /\ valid s = true /\ valid e = true
    /\ strftime_A s = "Monday"%string /\ strftime_A e = "Sunday"%string
    /\ toordinal e = toordinal s + 6
    /\ PyDate.leb s today = true /\ PyDate.leb today e = true
    /\ (strftime_A today = "Thursday"%string ->
        toordinal s = toordinal today - 3 /\ toordinal e = toordinal today + 3)
    /\ (forall d,
          get_current_goal Weekly_goal today d
          = Ok (List.find (goal_matches Weekly_goal s e) (goals d)))
    /\ (forall target now d,
          is_ok (save_goal Weekly_goal target today now d) = true).
Proof.
  intros V B.
  apply leb_toordinal in B; [|done..].
  change (toordinal (Date 9999 12 26)) with 3652054 in B.
  pose proof (toordinal_range today V) as [R _].
  pose proof (weekday_range today) as W.
  destruct (week_start (toordinal today) R) as [Hs Hw].
  fold (weekday today) in Hs, Hw.
  assert (Hs' : toordinal today - weekday today + 6 <= 3652054).
  { clear - Hs Hw B. Z.div_mod_to_equations. lia. }
  set (s := fromordinal (toordinal today - weekday today)).
  assert (Os : toordinal s = toordinal today - weekday today)
    by apply toordinal_fromordinal.
  set (e := fromordinal (toordinal s + 6)).
  assert (Oe : toordinal e = toordinal s + 6) by apply toordinal_fromordinal.
  assert (Vs : valid s = true)
    by (apply fromordinal_valid; unfold MAXORDINAL; lia).
  assert (Ve : valid e = true)
    by (apply fromordinal_valid; unfold MAXORDINAL; lia).
  assert (We : weekday e = 6).
  { unfold weekday. rewrite Oe, Os.
    replace (toordinal today - weekday today + 6 + 6)
      with (6 + (toordinal today - weekday today + 6)) by lia.
    rewrite <- Z.add_mod_idemp_r, Hw by lia. reflexivity. }
  assert (Hwin : period_window Weekly_goal today = Ok (s, e)).
  { unfold period_window.
    rewrite sub_days_ok by (unfold MAXORDINAL; lia). cbn [rbind].
    fold s. rewrite add_days_ok by (unfold MAXORDINAL; lia). reflexivity. }
  exists s, e.
  split; [exact Hwin|]. split; [exact Vs|]. split; [exact Ve|].
  split. { apply (strftime_A_weekday s 0); [lia|]. unfold weekday. by rewrite Os. }
  split. { by apply (strftime_A_weekday e 6). }
  split; [exact Oe|].
  split. { apply leb_toordinal; [done..|lia]. }
  split. { apply leb_toordinal; [done..|lia]. }
  split. { intros H. apply (strftime_A_weekday today 3) in H; lia. }
  split.
  - intros d. unfold get_current_goal. rewrite Hwin. reflexivity.
  - intros target now d. unfold save_goal. rewrite Hwin. cbn [rbind].
    by destruct (List.find _ _).
Qed.

Lemma weekly_window_monday_to_sunday_witness :
  period_window Weekly_goal (Date 2025 4 24)
  = Ok (Date 2025 4 21, Date 2025 4 27)
  /\ strftime_A (Date 2025 4 24) = "Thursday"%string.
Proof.
  destruct (weekly_window_monday_to_sunday (Date 2025 4 24) eq_refl eq_refl)
    as (s & e & Hw & _).
  split; [|reflexivity].
  rewrite Hw. vm_compute in Hw. symmetry. exact Hw.
Defined.

(** C6 as stated fails: Monday 27 December 9999 is a date, and the Sunday
    after it is past the last date there is; there the window is not
    computed and both functions raise. *)
Lemma weekly_window_overflows_in_last_week :
  valid (Date 9999 12 27) = true
  /\ strftime_A (Date 9999 12 27) = "Monday"%string
  /\ period_window Weekly_goal (Date 9999 12 27)
     = Raise (OverflowError "date value out of range")
  /\ save_goal Weekly_goal 5 (Date 9999 12 27) 0 (Db [] 1 [] 1)
     = Raise (OverflowError "date value out of range")
  /\ get_current_goal Weekly_goal (Date 9999 12 27) (Db [] 1 [] 1)
     = Raise (OverflowError "date value out of range").
Proof. repeat split. Qed.

(** * One goal row per window *)

Lemma goal_matches_spec p s e g :
  goal_matches p s e g = true <-> goal_window g = (p, Some s, Some e).
Proof.
  unfold goal_matches, goal_window.
  rewrite !and3_holds, !eq3_holds. split.
  - intros [[[= ->] ->] ->]. done.
  - intros [= -> -> ->]. done.
Qed.

Lemma goal_window_set_target target g :
  goal_window (set_target target g) = goal_window g.
Proof. reflexivity. Qed.

Lemma NoDup_fmap_eq {A B} (f : A -> B) (l : list A) x y :
  NoDup (f <$> l) -> x ∈ l -> y ∈ l -> f x = f y -> x = y.
Proof.
  induction l as [|a l IH]; simpl; [by intros _ ?%elem_of_nil|].
  intros [Ha Hl]%NoDup_cons Hx Hy E.
  apply elem_of_cons in Hx as [->|Hx], Hy as [->|Hy]; auto.
  - exfalso. apply Ha. rewrite E. apply list_elem_of_fmap. eauto.
  - exfalso. apply Ha. rewrite <- E. apply list_elem_of_fmap. eauto.
Qed.

(** [save_goal] keeps the windows of the rows distinct. *)
Lemma save_goal_unique_windows p target today now d :
  unique_windows (goals d) ->
  unique_windows (goals (db_after d (save_goal p target today now d))).
Proof.
  intros Huniq. unfold save_goal.
  destruct (period_window p today) as [[s e]|]; cbn [rbind db_after];
    [|done].
  destruct (List.find _ (goals d)) as [existing|] eqn:Efind;
    cbn [db_after goals].
  - unfold unique_windows. rewrite <- list_fmap_compose.
    erewrite list_fmap_ext; [exact Huniq|].
    intros i g _. simpl. by destruct (_ =? _).
  - unfold unique_windows. rewrite fmap_app. apply NoDup_app.
    split; [done|]. split; [|apply NoDup_singleton].
    intros w Hw Hw'. apply list_elem_of_singleton in Hw'. subst w.
    apply list_elem_of_fmap in Hw as (g & Hw & Hg).
    symmetry in Hw. change (goal_window g = (p, Some s, Some e)) in Hw.
    apply goal_matches_spec in Hw. apply list_elem_of_In in Hg.
    pose proof (find_none _ _ Efind g Hg). congruence.
Qed.

(** The table starts empty, and only [save_goal] writes to it: after any
    calls its windows are distinct. *)
Lemma unique_windows_after_saves (calls : list (Period * Z * date * Z)) d :
  unique_windows (goals d) ->
  unique_windows
    (goals (foldl (fun d c =>
                     db_after d (save_goal c.1.1.1 c.1.1.2 c.1.2 c.2 d))
                  d calls)).
Proof.
  revert d. induction calls as [|c calls IH]; intros d Hd; simpl; [done|].
  apply IH, save_goal_unique_windows, Hd.
Qed.

(** C7: if no two rows of [goals] have the same (period, start date, end
    date), the same holds after [save_goal], which leaves [tasks] alone.
    When a row for the current window exists, [save_goal] changes no
    window, sets that row's target, and leaves every row with another id as
    it is; when none exists it appends one row for the window; when the
    window cannot be computed the database is unchanged. *)
Theorem save_goal_keeps_one_row_per_window p target today now d :
  unique_windows (goals d) ->
  let d' := db_after d (save_goal p target today now d) in
  unique_windows (goals d')
  /\ tasks d' = tasks d
  /\ match period_window p today with
     | Ok (s, e) =>
         match List.find (goal_matches p s e) (goals d) with
         | Some existing =>
             existing ∈ goals d
             /\ goal_window existing = (p, Some s, Some e)
             /\ goal_window <$> goals d' = goal_window <$> goals d
             /\ set_target target existing ∈ goals d'
             /\ (forall g, g ∈ goals d' ->
                   goal_window g = (p, Some s, Some e) ->
                   target_count g = target)
             /\ (forall g, g ∈ goals d ->
                   goal_id g <> goal_id existing -> g ∈ goals d')
         | None =>
             (forall g, g ∈ goals d -> goal_window g <> (p, Some s, Some e))
             /\ goals d'
                = goals d ++ [Goal (next_goal_id d) p target (Some s) (Some e) now]
         end
     | Raise _ => d' = d
     end.
Proof.
  intros Huniq d'.
  split; [by apply save_goal_unique_windows|]. subst d'. unfold save_goal.
  destruct (period_window p today) as [[s e]|]; cbn [rbind db_after];
    [|done].
  destruct (List.find _ (goals d)) as [existing|] eqn:Efind;
    cbn [db_after goals tasks].
  - apply find_some in Efind as [Hin Hmatch].
    apply list_elem_of_In in Hin. apply goal_matches_spec in Hmatch.
    set (upd := fun g : goal =>
           if goal_id g =? goal_id existing then set_target target g else g).
    assert (Hwin : goal_window <$> (upd <$> goals d) = goal_window <$> goals d).
    { rewrite <- list_fmap_compose. apply list_fmap_ext.
      intros i g _. unfold upd. simpl. by destruct (_ =? _). }
    split; [done|]. split; [done|]. split; [done|]. split; [done|].
    split; [|split].
    + apply list_elem_of_fmap. exists existing. unfold upd.
      by rewrite Z.eqb_refl.
    + intros g Hg Hw. apply list_elem_of_fmap in Hg as (g0 & -> & Hg0).
      assert (g0 = existing) as ->.
      { apply (NoDup_fmap_eq goal_window (goals d)); try done.
        rewrite Hmatch, <- Hw. unfold upd. by destruct (_ =? _). }
      unfold upd. by rewrite Z.eqb_refl.
    + intros g Hg Hne. apply list_elem_of_fmap. exists g. split; [|done].
      unfold upd. by destruct (Z.eqb_spec (goal_id g) (goal_id existing)).
  - split; [done|]. split; [|done].
    intros g Hg Hw. apply goal_matches_spec in Hw.
    apply list_elem_of_In in Hg.
    pose proof (find_none _ _ Efind g Hg). congruence.
Qed.

Lemma save_goal_keeps_one_row_per_window_witness :
  unique_windows
    (goals (db_after one_goal
              (save_goal Weekly_goal 8 (Date 2025 4 24) 10 one_goal)))
  /\ goals (db_after one_goal
              (save_goal Monthly_goal 20 (Date 2025 4 24) 10 one_goal))
     = [Goal 1 Weekly_goal 5 (Some (Date 2025 4 21)) (Some (Date 2025 4 27)) 0;
        Goal 2 Monthly_goal 20 (Some (Date 2025 4 1)) (Some (Date 2025 4 30)) 10].
Proof.
  assert (U : unique_windows (goals one_goal)).
  { unfold unique_windows, one_goal. simpl.
    apply NoDup_cons_2; [apply not_elem_of_nil|apply NoDup_nil_2]. }
  split.
  - exact (proj1 (save_goal_keeps_one_row_per_window
                    Weekly_goal 8 (Date 2025 4 24) 10 one_goal U)).
  - reflexivity.
Defined.

(** * The add-task form *)

Lemma lstrip_blank s :
  PyStr.all_chars PyStr.isspace s = true -> PyStr.lstrip s = EmptyString.
Proof.
  induction s as [|c s IH]; simpl; [done|].
  intros H. apply andb_true_iff in H as [Hc Hs]. rewrite Hc. auto.
Qed.

(** C8: when "Add Task" is pressed with a title that is empty or has only
    white space, the notice "Title is required" is shown and the database
    is unchanged: no row is added to [tasks]. *)
Theorem blank_title_adds_no_task f now d :
  PyStr.all_chars PyStr.isspace (form_title f) = true ->
  add_task_button f now d = (d, [Error_notice "Title is required"]).
Proof.
  intros H. unfold add_task_button, PyStr.strip.
  rewrite (lstrip_blank _ H). reflexivity.
Qed.

Lemma blank_title_adds_no_task_witness :
  add_task_button
    (Add_form "   " "notes" Low Daily [] 1 (Date 2025 4 22)) 0 (Db [] 1 [] 1)
  = (Db [] 1 [] 1, [Error_notice "Title is required"]).
Proof. apply blank_title_adds_no_task. reflexivity. Defined.

(** With a title, the same form adds one row. *)
Example titled_form_adds_task :
  add_task_button
    (Add_form " Buy milk " "" Low One_time [] 1 (Date 2025 4 22)) 0 (Db [] 1 [] 1)
  = (Db [Task 1 " Buy milk " "" Pending Low One_time (Some ""%string) None
              (Some (Date 2025 4 22)) None None 0] 2 [] 1,
     [Success "Task added!"]).
Proof. reflexivity. Qed.

(** * Sending a message *)

Lemma get_twilio_client_trace w tr :
  exists sid token,
    get_twilio_client w tr = (Client w sid token, tr).
Proof.
  unfold get_twilio_client.
  destruct (negb _ || negb _); eexists _, _; reflexivity.
Qed.

(** [send_sms] in closed form, by the outcome of the client constructor, of
    the check of the number and of [messages.create]. *)
Lemma send_sms_eq w body tr :
  send_sms w body tr
  = match (get_twilio_client w tr).1 with
    | Raise e =>
        (Ok (false, exn_str e),
         tr ++ [Printed (String.append "Error sending SMS: " (exn_str e))])
    | Ok client =>
        if e164 (to_number w) then
          match messages_create w client body (from_number w) (to_number w) with
          | Ok sid =>
              (Ok (true, sid),
               tr ++ [Message_create body (from_number w) (to_number w)])
          | Raise e =>
              (Ok (false, exn_str e),
               tr ++ [Message_create body (from_number w) (to_number w);
                      Printed (String.append "Error sending SMS: " (exn_str e))])
          end
        else (Ok (false, invalid_phone_message), tr)
    end.
Proof.
  unfold send_sms, try_except, io_bind, e164, to_number, from_number.
  destruct (get_twilio_client_trace w tr) as (sid & token & ->). cbn [fst].
  destruct (Client w sid token) as [client|e]; [|reflexivity].
  destruct (PyStr.startswith "+" _); [|reflexivity].
  destruct (PyStr.isdigit _); [|reflexivity]. cbn [negb orb andb].
  unfold create_message, io_ret, print.
  destruct (messages_create w client body _ _) as [sid'|e]; [reflexivity|].
  by rewrite <- app_assoc.
Qed.

(** What [send_sms] does to the trace: it returns, asks for at most one
    message, with the body it was given and to the number of the
    environment, which then has the format it checks; with such a number
    and a client, it does ask for that message, first. *)
Lemma send_sms_events w body tr :
  exists ok msg new,
    send_sms w body tr = (Ok (ok, msg), tr ++ new)
    /\ (creates new <= 1)%nat
    /\ (forall b from_ to,
          Message_create b from_ to ∈ new ->
          b = body /\ from_ = from_number w /\ to = to_number w
          /\ e164 (to_number w) = true)
    /\ (e164 (to_number w) = true ->
        is_ok (get_twilio_client w tr).1 = true ->
        exists rest,
          new = Message_create body (from_number w) (to_number w) :: rest)
    /\ (ok = true -> new = [Message_create body (from_number w) (to_number w)]).
Proof.
  rewrite send_sms_eq.
  destruct ((get_twilio_client w tr).1) as [client|e].
  - destruct (e164 (to_number w)) eqn:E.
    + destruct (messages_create w client body _ _) as [sid'|e].
      * eexists true, sid', [_]. split; [done|].
        split; [cbv [creates List.filter length]; lia|].
        split; [by intros b f t [= -> -> ->]%list_elem_of_singleton|].
        split; [eauto|done].
      * eexists false, (exn_str e), [_; _]. split; [done|].
        split; [cbv [creates List.filter length]; lia|]. split.
        { intros b f t Hin.
          apply elem_of_cons in Hin as [[= -> -> ->]|Hin]; [done|].
          by apply list_elem_of_singleton in Hin. }
        split; [eauto|done].
    + exists false, invalid_phone_message, []. rewrite app_nil_r.
      split; [done|]. split; [cbv [creates List.filter length]; lia|].
      split; [by intros ??? ?%elem_of_nil|done].
  - eexists false, (exn_str e), [_]. split; [done|].
    split; [cbv [creates List.filter length]; lia|].
    split; [by intros b f t ?%list_elem_of_singleton|done].
Qed.

(** C9: for every message body, [send_sms] returns a pair and raises
    nothing, and it asks the service to create a message at most once.
    When the client is constructed, the number has the format checked and
    the service returns a message id, the message is requested once and the
    result is (true, that id).  When the client constructor or the service
    raises, the error is printed and the result is (false, the text of the
    error), with no second attempt.  A number of another format gives
    (false, the reason) with nothing requested. *)
Theorem send_sms_always_returns w body tr :
  (exists ok msg new,
     send_sms w body tr = (Ok (ok, msg), tr ++ new) /\ (creates new <= 1)%nat)
  /\ match (get_twilio_client w tr).1 with
     | Raise e =>
         send_sms w body tr
         = (Ok (false, exn_str e),
            tr ++ [Printed (String.append "Error sending SMS: " (exn_str e))])
     | Ok client =>
         if e164 (to_number w) then
           match messages_create w client body (from_number w) (to_number w) with
           | Ok sid =>
               send_sms w body tr
               = (Ok (true, sid),
                  tr ++ [Message_create body (from_number w) (to_number w)])
           | Raise e =>
               send_sms w body tr
               = (Ok (false, exn_str e),
                  tr ++ [Message_create body (from_number w) (to_number w);
                         Printed (String.append "Error sending SMS: "
                                                (exn_str e))])
           end
         else send_sms w body tr = (Ok (false, invalid_phone_message), tr)
     end.
Proof.
  split.
  - destruct (send_sms_events w body tr) as (ok & msg & new & H & Hc & _).
    by exists ok, msg, new.
  - rewrite send_sms_eq.
    destruct ((get_twilio_client w tr).1) as [client|e]; [|done].
    destruct (e164 (to_number w)); [|done].
    by destruct (messages_create w client body _ _).
Qed.

(** The service answers: the message is requested and its id returned. *)
Example send_sms_service_up :
  send_sms twilio_up "hi" []
  = (Ok (true, "SM1"%string),
     [Message_create "hi" "+15550001111" "+15557654321"]).
Proof. reflexivity. Qed.

(** * Period windows *)

Lemma days_before_month_succ y m :
  1 <= m < 12 ->
  days_before_month y (m + 1) = days_before_month y m + days_in_month y m.
Proof.
  intros H. unfold days_before_month, days_in_month.
  assert (C : m = 1 \/ m = 2 \/ m = 3 \/ m = 4 \/ m = 5 \/ m = 6 \/ m = 7
              \/ m = 8 \/ m = 9 \/ m = 10 \/ m = 11) by lia.
  destruct (is_leap y);
    repeat (destruct C as [C | C]; [subst m; reflexivity|]); subst m; reflexivity.
Qed.

Lemma days_in_month_range y m : 1 <= m <= 12 -> 28 <= days_in_month y m <= 31.
Proof.
  intros H. unfold days_in_month.
  assert (C : m = 1 \/ m = 2 \/ m = 3 \/ m = 4 \/ m = 5 \/ m = 6 \/ m = 7
              \/ m = 8 \/ m = 9 \/ m = 10 \/ m = 11 \/ m = 12) by lia.
  destruct (is_leap y);
    repeat (destruct C as [C | C]; [subst m; vm_compute; split; discriminate|]);
    subst m; vm_compute; split; discriminate.
Qed.

Lemma check_date_fields_spec y m d :
  check_date_fields y m d = true
  <-> 1 <= y <= 9999 /\ 1 <= m <= 12 /\ 1 <= d <= days_in_month y m.
Proof. apply (valid_spec (Date y m d)). Qed.

Lemma as_c_int_ok n : - 2 ^ 31 <= n < 2 ^ 31 -> as_c_int n = Ok n.
Proof.
  intros H. unfold as_c_int.
  destruct (Z.ltb_spec n (- 2 ^ 63)); [lia|].
  destruct (Z.leb_spec (2 ^ 63) n); [lia|].
  destruct (Z.leb_spec (2 ^ 31) n); [lia|].
  destruct (Z.ltb_spec n (- 2 ^ 31)); [lia|]. done.
Qed.

Lemma mk_date_ok y m d :
  check_date_fields y m d = true -> mk_date y m d = Ok (Date y m d).
Proof.
  intros H. apply check_date_fields_spec in H as (Hy & Hm & Hd).
  pose proof (days_in_month_range y m Hm).
  unfold mk_date, MINYEAR, MAXYEAR.
  rewrite !as_c_int_ok by lia. cbn [rbind].
  destruct (Z.ltb_spec y 1); [lia|]. destruct (Z.ltb_spec 9999 y); [lia|].
  destruct (Z.ltb_spec m 1); [lia|]. destruct (Z.ltb_spec 12 m); [lia|].
  destruct (Z.ltb_spec d 1); [lia|].
  destruct (Z.ltb_spec (days_in_month y m) d); [lia|]. done.
Qed.

(** The window of a month, when the first day of the next month is a date. *)
Lemma monthly_window_eq today :
  valid today = true ->
  ~ (year today = 9999 /\ month today = 12) ->
  period_window Monthly_goal today
  = Ok (Date (year today) (month today) 1,
        Date (year today) (month today)
             (days_in_month (year today) (month today))).
Proof.
  intros V Hlast. pose proof V as V'. apply valid_spec in V' as (Hy & Hm & Hd).
  pose proof (days_in_month_range (year today) (month today) Hm) as Hdim.
  unfold period_window.
  set (y := year today) in *. set (m := month today) in *. clearbody y m.
  assert (Vlast : valid (Date y m (days_in_month y m)) = true).
  { apply valid_spec. simpl. lia. }
  pose proof (toordinal_range _ Vlast) as Rlast.
  rewrite mk_date_ok by (apply check_date_fields_spec; lia). cbn [rbind].
  assert (Hend : forall y' m',
            check_date_fields y' m' 1 = true ->
            toordinal (Date y' m' 1) - 1 = toordinal (Date y m (days_in_month y m)) ->
            (first <-! mk_date y' m' 1; sub_days first 1)
            = Ok (Date y m (days_in_month y m))).
  { intros y' m' Hc Ho. rewrite mk_date_ok by done. cbn [rbind].
    rewrite sub_days_ok by (rewrite Ho; lia).
    rewrite Ho. by rewrite fromordinal_toordinal. }
  destruct (Z.eqb_spec m 12) as [E|E].
  - rewrite Hend; [done|apply check_date_fields_spec; vm_compute days_in_month; lia|].
    unfold toordinal, ymd2ord. cbn [year month day].
    rewrite days_before_year_succ. rewrite E.
    unfold days_before_month, days_in_month.
    destruct (is_leap y); vm_compute index; simpl; lia.
  - rewrite Hend; [done| |].
    + apply check_date_fields_spec.
      pose proof (days_in_month_range y (m + 1) ltac:(lia)). lia.
    + unfold toordinal, ymd2ord. cbn [year month day].
      rewrite days_before_month_succ by lia. lia.
Qed.

Lemma sub_days_inv d n d' :
  sub_days d n = Ok d' ->
  1 <= toordinal d - n <= MAXORDINAL /\ d' = fromordinal (toordinal d - n).
Proof.
  unfold sub_days. intros H. apply add_days_inv in H.
  by rewrite Z.add_opp_r in H.
Qed.

Lemma rbind_Ok_inv {A B} (r : result A) (k : A -> result B) b :
  rbind r k = Ok b -> exists a, r = Ok a /\ k a = Ok b.
Proof. destruct r as [a|e]; simpl; [eauto|done]. Qed.

(** What a computed Weekly window is. *)
Lemma weekly_window_inv today s e :
  valid today = true ->
  period_window Weekly_goal today = Ok (s, e) ->
  valid s = true /\ valid e = true
  /\ toordinal s = toordinal today - weekday today
  /\ toordinal e = toordinal s + 6.
Proof.
  intros V H. unfold period_window in H.
  apply rbind_Ok_inv in H as (s0 & Hs & H).
  apply rbind_Ok_inv in H as (e0 & He & H).
  apply Ok_inj in H. injection H as <- <-.
  apply sub_days_inv in Hs as [Rs ->].
  assert (Os := toordinal_fromordinal (toordinal today - weekday today)).
  apply add_days_inv in He as [Re ->]. rewrite Os in Re |- *.
  rewrite toordinal_fromordinal.
  split; [by apply fromordinal_valid|]. split; [by apply fromordinal_valid|].
  done.
Qed.

(** A computed window holds the reference date. *)
Lemma period_window_contains p today s e :
  valid today = true ->
  period_window p today = Ok (s, e) ->
  valid s = true /\ valid e = true
  /\ PyDate.leb s today = true /\ PyDate.leb today e = true.
Proof.
  intros V H. destruct p.
  - destruct (weekly_window_inv today s e V H) as (Vs & Ve & Os & Oe).
    pose proof (weekday_range today).
    split; [done|]. split; [done|].
    split; apply leb_toordinal; try done; lia.
  - assert (N : ~ (year today = 9999 /\ month today = 12)).
    { intros [Ey Em]. unfold period_window in H. rewrite Ey, Em in H.
      vm_compute in H. discriminate H. }
    rewrite (monthly_window_eq today V N) in H.
    apply Ok_inj in H. injection H as <- <-.
    pose proof V as V'. apply valid_spec in V' as (Hy & Hm & Hd).
    pose proof (days_in_month_range (year today) _ Hm).
    split; [apply valid_spec; simpl; lia|].
    split; [apply valid_spec; simpl; lia|].
    unfold PyDate.leb, PyDate.ltb. cbn [year month day].
    rewrite !Z.ltb_irrefl, !Z.eqb_refl. simpl.
    split; apply negb_true_iff, Z.ltb_ge; lia.
Qed.

(** X1: for a date outside December 9999, the Monthly window runs from the
    first to the last day of the date's month and holds the date; in
    December 9999 computing it raises the ValueError of [date(10000, 1, 1)],
    "year 10000 is out of range". *)
Theorem monthly_window_is_the_calendar_month today :
  valid today = true ->
  if (year today =? 9999) && (month today =? 12) then
    period_window Monthly_goal today
    = Raise (ValueError "year 10000 is out of range")
  else
    exists s e,
      period_window Monthly_goal today = Ok (s, e)
      /\ s = Date (year today) (month today) 1
      /\ e = Date (year today) (month today)
                  (days_in_month (year today) (month today))
      /\ valid s = true /\ valid e = true
      /\ toordinal e + 1
         = toordinal s + days_in_month (year today) (month today)
      /\ PyDate.leb s today = true /\ PyDate.leb today e = true.
Proof.
  intros V.
  destruct (Z.eqb_spec (year today) 9999) as [Ey|Ny];
    [destruct (Z.eqb_spec (month today) 12) as [Em|Nm]|]; cbn [andb].
  - unfold period_window. rewrite Ey, Em. reflexivity.
  - assert (N : ~ (year today = 9999 /\ month today = 12)) by tauto.
    pose proof (monthly_window_eq today V N) as H.
    destruct (period_window_contains _ _ _ _ V H) as (? & ? & ? & ?).
    eexists _, _. repeat split; try done.
    unfold toordinal, ymd2ord. cbn [year month day]. lia.
  - assert (N : ~ (year today = 9999 /\ month today = 12)) by tauto.
    pose proof (monthly_window_eq today V N) as H.
    destruct (period_window_contains _ _ _ _ V H) as (? & ? & ? & ?).
    eexists _, _. repeat split; try done.
    unfold toordinal, ymd2ord. cbn [year month day]. lia.
Qed.

Lemma monthly_window_is_the_calendar_month_witness :
  period_window Monthly_goal (Date 2024 2 10)
  = Ok (Date 2024 2 1, Date 2024 2 29).
Proof.
  destruct (monthly_window_is_the_calendar_month (Date 2024 2 10) eq_refl)
    as (s & e & H & -> & -> & _).
  exact H.
Defined.

(** The Weekly window of a date up to 26 December 9999 is computed. *)
Lemma weekly_window_ok today :
  valid today = true ->
  toordinal today <= 3652054 ->
  exists s e, period_window Weekly_goal today = Ok (s, e).
Proof.
  intros V B.
  pose proof (toordinal_range today V) as [R _].
  pose proof (weekday_range today) as W.
  destruct (week_start (toordinal today) R) as [Hs Hw].
  fold (weekday today) in Hs, Hw.
  assert (Hs' : toordinal today - weekday today + 6 <= 3652054).
  { clear - Hs Hw B. Z.div_mod_to_equations. lia. }
  unfold period_window.
  rewrite sub_days_ok by (unfold MAXORDINAL; lia). cbn [rbind].
  rewrite add_days_ok; [eauto|].
  rewrite toordinal_fromordinal. unfold MAXORDINAL. lia.
Qed.

(** The dates up to 26 December 9999, by their ordinal. *)
Lemma before_last_week today :
  valid today = true ->
  ~ (year today = 9999 /\ month today = 12 /\ 27 <= day today) ->
  toordinal today <= 3652054.
Proof.
  intros V H. pose proof V as V'. apply valid_spec in V' as (Hy & Hm & Hd).
  change 3652054 with (toordinal (Date 9999 12 26)).
  apply leb_toordinal; [done..|].
  unfold PyDate.leb, PyDate.ltb. cbn [year month day].
  rewrite negb_true_iff.
  repeat (rewrite ?orb_false_iff, ?andb_false_iff, ?Z.ltb_ge, ?Z.eqb_neq).
  lia.
Qed.

(** X2: the window computation that [save_goal], [get_current_goal] and
    [get_completed_count] start with gives a window for every date except
    the last days of year 9999: from 27 December on, the Weekly window
    raises OverflowError, and in all of December the Monthly window raises
    ValueError.  A computed window consists of two dates and holds the
    reference date. *)
Theorem period_window_holds_the_reference_date p today :
  valid today = true ->
  let last_days :=
    (year today =? 9999) && (month today =? 12)
    && match p with
       | Weekly_goal => 27 <=? day today
       | Monthly_goal => true
       end in
  if last_days then
    period_window p today
    = Raise (match p with
             | Weekly_goal => OverflowError "date value out of range"
             | Monthly_goal => ValueError "year 10000 is out of range"
             end)
  else
    exists s e,
      period_window p today = Ok (s, e)
      /\ valid s = true /\ valid e = true
      /\ PyDate.leb s today = true /\ PyDate.leb today e = true.
Proof.
  intros V. cbv zeta.
  pose proof V as V'. apply valid_spec in V' as (Hy & Hm & Hd).
  assert (Hwin : (exists s e, period_window p today = Ok (s, e)) ->
                 exists s e,
                   period_window p today = Ok (s, e)
                   /\ valid s = true /\ valid e = true
                   /\ PyDate.leb s today = true /\ PyDate.leb today e = true).
  { intros (s & e & H). exists s, e. split; [done|].
    by apply (period_window_contains p). }
  destruct (Z.eqb_spec (year today) 9999) as [Ey|Ny];
    [destruct (Z.eqb_spec (month today) 12) as [Em|Nm]|]; cbn [andb].
  - destruct p.
    + destruct (Z.leb_spec 27 (day today)) as [Hlate|Hearly].
      * destruct today as [y m d]. cbn [year month day] in *. subst y m.
        change (days_in_month 9999 12) with 31 in Hd.
        assert (C : d = 27 \/ d = 28 \/ d = 29 \/ d = 30 \/ d = 31) by lia.
        destruct C as [-> | [-> | [-> | [-> | ->]]]]; reflexivity.
      * apply Hwin, weekly_window_ok, before_last_week; [done..|lia].
    + unfold period_window. rewrite Ey, Em. reflexivity.
  - apply Hwin. destruct p.
    + apply weekly_window_ok, before_last_week; [done..|lia].
    + eexists _, _. apply monthly_window_eq; [done|tauto].
  - apply Hwin. destruct p.
    + apply weekly_window_ok, before_last_week; [done..|lia].
    + eexists _, _. apply monthly_window_eq; [done|tauto].
Qed.

Lemma period_window_holds_the_reference_date_witness :
  period_window Weekly_goal (Date 9999 12 29)
  = Raise (OverflowError "date value out of range")
  /\ exists s e,
       period_window Weekly_goal (Date 9999 12 26) = Ok (s, e)
       /\ PyDate.leb s (Date 9999 12 26) = true
       /\ PyDate.leb (Date 9999 12 26) e = true.
Proof.
  split.
  - exact (period_window_holds_the_reference_date Weekly_goal (Date 9999 12 29)
             eq_refl).
  - destruct (period_window_holds_the_reference_date Weekly_goal
                (Date 9999 12 26) eq_refl) as (s & e & H & _ & _ & Hs & He).
    by exists s, e.
Defined.

(** * Goals and the dashboard *)

Lemma find_fmap_same {A} (P : A -> bool) (f : A -> A) l :
  (forall x, P (f x) = P x) ->
  List.find P (f <$> l) = f <$> List.find P l.
Proof.
  intros H. induction l as [|x l IH]; simpl; [done|].
  rewrite H. by destruct (P x).
Qed.

Lemma find_app_None {A} (P : A -> bool) l x :
  List.find P l = None -> P x = true -> List.find P (l ++ [x]) = Some x.
Proof.
  induction l as [|y l IH]; simpl; intros Hn Hx; [by rewrite Hx|].
  destruct (P y); [done|]. auto.
Qed.

Lemma goal_matches_set_target p s e target g :
  goal_matches p s e (set_target target g) = goal_matches p s e g.
Proof. reflexivity. Qed.

(** After [save_goal], the row of the window carries the target. *)
Lemma save_goal_find p target today now d s e :
  period_window p today = Ok (s, e) ->
  exists d' g,
    save_goal p target today now d = Ok d'
    /\ List.find (goal_matches p s e) (goals d') = Some g
    /\ target_count g = target
    /\ goal_window g = (p, Some s, Some e)
    /\ length (goals d')
       = (if List.find (goal_matches p s e) (goals d)
          then length (goals d) else S (length (goals d))).
Proof.
  intros Hw. unfold save_goal. rewrite Hw. cbn [rbind].
  destruct (List.find _ (goals d)) as [existing|] eqn:Efind.
  - eexists _, _. split; [done|]. cbn [goals].
    rewrite find_fmap_same, Efind; [|by intros g; destruct (_ =? _)].
    cbn [fmap option_fmap option_map]. rewrite Z.eqb_refl.
    split; [done|]. split; [done|].
    apply find_some in Efind as [_ Hm]. apply goal_matches_spec in Hm.
    split; [done|]. by rewrite length_fmap.
  - eexists _, _. split; [done|]. cbn [goals].
    rewrite (find_app_None _ _ _ Efind);
      [|by apply goal_matches_spec].
    split; [done|]. split; [done|]. split; [done|].
    rewrite length_app. simpl. lia.
Qed.

(** X3: when the window of the day is computed, [save_goal] returns, and
    [get_current_goal] for the same period and day then returns a goal of
    that period with the saved target; saving again for that window adds no
    row and changes no window. *)
Theorem save_goal_then_get_current_goal p target today now d :
  is_ok (period_window p today) = true ->
  exists d' g,
    save_goal p target today now d = Ok d'
    /\ get_current_goal p today d' = Ok (Some g)
    /\ target_count g = target
    /\ period g = p
    /\ (forall target' now',
          exists d'',
            save_goal p target' today now' d' = Ok d''
            /\ length (goals d'') = length (goals d')
            /\ goal_window <$> goals d'' = goal_window <$> goals d').
Proof.
  intros Hok. destruct (period_window p today) as [[s e]|] eqn:Hw; [|done].
  destruct (save_goal_find p target today now d s e Hw)
    as (d' & g & Hsave & Hfind & Ht & Hwin & _).
  exists d', g. split; [done|].
  split; [by unfold get_current_goal; rewrite Hw; cbn [rbind]; rewrite Hfind|].
  split; [done|]. split; [by injection Hwin|].
  intros target' now'. unfold save_goal. rewrite Hw. cbn [rbind].
  rewrite Hfind. eexists. split; [done|]. cbn [goals].
  split; [by rewrite length_fmap|].
  rewrite <- list_fmap_compose. apply list_fmap_ext.
  intros i g0 _. simpl. by destruct (_ =? _).
Qed.

Lemma save_goal_then_get_current_goal_witness :
  exists g,
    get_current_goal Monthly_goal (Date 2025 4 24)
      (db_after one_goal (save_goal Monthly_goal 20 (Date 2025 4 24) 10 one_goal))
    = Ok (Some g)
    /\ target_count g = 20.
Proof.
  destruct (save_goal_then_get_current_goal Monthly_goal 20 (Date 2025 4 24) 10
              one_goal eq_refl) as (d' & g & Hs & Hg & Ht & _).
  exists g. rewrite Hs. cbn [db_after]. split; [exact Hg|exact Ht].
Defined.

(* ---- dashboard ---- *)
Lemma filter_length_le {A} (P : A -> bool) l :
  (length (List.filter P l) <= length l)%nat.
Proof. induction l as [|x l IH]; simpl; [lia|]. destruct (P x); simpl; lia. Qed.

Lemma filter_length_implies {A} (P Q : A -> bool) l :
  (forall x, P x = true -> Q x = true) ->
  (length (List.filter P l) <= length (List.filter Q l))%nat.
Proof.
  intros H. induction l as [|x l IH]; simpl; [lia|].
  destruct (P x) eqn:E; [rewrite (H x E); simpl; lia|].
  destruct (Q x); simpl; lia.
Qed.

Lemma pending_completed_partition (l : list task) :
  (length (List.filter (fun t => bool_decide (status t = Pending)) l)
   + length (List.filter (fun t => bool_decide (status t = Completed)) l)
   = length l)%nat.
Proof.
  induction l as [|t l IH]; simpl; [done|].
  destruct (status t); simpl; lia.
Qed.

(** X4: in [task_stats], pending plus completed is the number of tasks,
    and the overdue metric lies between 0 and the pending metric. *)
Theorem dashboard_metrics_add_up today tasks :
  n_pending (task_stats today tasks) + n_completed (task_stats today tasks)
  = Z.of_nat (length tasks)
  /\ 0 <= n_overdue (task_stats today tasks) <= n_pending (task_stats today tasks).
Proof.
  split.
  - unfold task_stats. cbn [n_pending n_completed].
    pose proof (pending_completed_partition tasks). lia.
  - unfold task_stats. cbn [n_pending n_overdue].
    rewrite overdue_fold.
    pose proof (filter_length_implies (overdue_when_before_today today)
                  (fun t => bool_decide (status t = Pending)) tasks) as H.
    lapply H; [lia|].
    intros t Ht. unfold overdue_when_before_today in Ht.
    by apply andb_true_iff in Ht as [? _].
Qed.

(** X5: the count of completed tasks that the goal tracker reads for a
    period never exceeds the Completed metric of the dashboard, whatever
    the day. *)
Theorem completed_count_within_completed_metric p today d :
  match get_completed_count p today d with
  | Ok c => 0 <= c <= n_completed (task_stats today (tasks d))
  | Raise _ => True
  end.
Proof.
  unfold get_completed_count.
  destruct (period_window p today) as [[s e]|]; cbn [rbind]; [|done].
  unfold task_stats. cbn [n_completed].
  pose proof (filter_length_implies (completed_between s e)
                (fun t => bool_decide (status t = Completed)) (tasks d)) as H.
  lapply H; [lia|].
  intros t Ht. rewrite completed_between_spec in Ht.
  by apply andb_true_iff in Ht as [? _].
Qed.

(** * The tasks table *)

Lemma fmap_id_update (f : task -> task) (l : list task) :
  (forall t, id (f t) = id t) -> id <$> (f <$> l) = id <$> l.
Proof.
  intros H. rewrite <- list_fmap_compose. apply list_fmap_ext.
  intros i t _. apply H.
Qed.

Lemma filter_id_fresh (i : Z) (l : list task) :
  (forall t, t ∈ l -> id t < i) ->
  List.filter (fun t => negb (id t =? i)) l = l.
Proof.
  induction l as [|t l IH]; intros H; simpl; [done|].
  destruct (Z.eqb_spec (id t) i) as [E|_]; simpl.
  - pose proof (H t (list_elem_of_here _ _)). lia.
  - f_equal. apply IH. intros t' Ht'. apply H. by apply list_elem_of_further.
Qed.

Lemma NoDup_filter_fmap (P : task -> bool) (l : list task) :
  NoDup (id <$> l) -> NoDup (id <$> List.filter P l).
Proof.
  induction l as [|t l IH]; simpl; [done|].
  intros [Hn Hl]%NoDup_cons. destruct (P t); simpl; [|auto].
  apply NoDup_cons. split; [|auto].
  intros Hin. apply Hn. apply list_elem_of_fmap in Hin as (t' & E & Hin).
  apply list_elem_of_fmap. exists t'. split; [done|].
  apply list_elem_of_In in Hin. apply filter_In in Hin as [Hin _].
  by apply list_elem_of_In.
Qed.

(** X6: if the ids of [tasks] are distinct and below the AUTO_INCREMENT
    counter, they are so after [add_task], [update_task_status],
    [edit_task] and [delete_task]. *)
Theorem task_ids_stay_distinct d :
  task_ids_ok d ->
  (forall title desc pr ty wd md ed now,
     task_ids_ok (add_task title desc pr ty wd md ed now d))
  /\ (forall i st lc, task_ids_ok (update_task_status i st lc d))
  /\ (forall i title desc pr ty wd md ed,
        task_ids_ok (edit_task i title desc pr ty wd md ed d))
  /\ (forall i, task_ids_ok (delete_task i d)).
Proof.
  intros [Hnd Hlt]. repeat split.
  - unfold add_task. cbn [tasks]. rewrite fmap_app. apply NoDup_app.
    split; [done|]. split; [|apply NoDup_singleton].
    intros i Hi Hi'. apply list_elem_of_singleton in Hi'. simpl in Hi'.
    apply list_elem_of_fmap in Hi as (t & -> & Ht). apply Hlt in Ht. lia.
  - unfold add_task. cbn [tasks next_task_id]. intros t Ht.
    apply elem_of_app in Ht as [Ht|Ht%list_elem_of_singleton].
    + apply Hlt in Ht. lia.
    + subst t. simpl. lia.
  - unfold update_task_status. cbn [tasks].
    rewrite fmap_id_update; [done|].
    intros t. destruct (_ =? _); [|done]. by destruct lc.
  - unfold update_task_status. cbn [tasks next_task_id]. intros t Ht.
    apply list_elem_of_fmap in Ht as (t0 & -> & Ht0). apply Hlt in Ht0.
    destruct (_ =? _); [|done]. by destruct lc.
  - unfold edit_task. cbn [tasks].
    rewrite fmap_id_update; [done|]. intros t. by destruct (_ =? _).
  - unfold edit_task. cbn [tasks next_task_id]. intros t Ht.
    apply list_elem_of_fmap in Ht as (t0 & -> & Ht0). apply Hlt in Ht0.
    by destruct (_ =? _).
  - unfold delete_task. cbn [tasks]. by apply NoDup_filter_fmap.
  - unfold delete_task. cbn [tasks next_task_id]. intros t Ht.
    apply list_elem_of_In, filter_In in Ht as [Ht _].
    by apply Hlt, list_elem_of_In.
Qed.

Lemma task_ids_stay_distinct_witness :
  task_ids_ok (delete_task 2 (add_task "Call Ana" "" Low Daily "" None None 5
                                (Db [watering] 2 [] 1))).
Proof.
  assert (H0 : task_ids_ok (Db [watering] 2 [] 1)).
  { split.
    - apply NoDup_singleton.
    - intros t Ht. apply list_elem_of_singleton in Ht. subst t. reflexivity. }
  destruct (task_ids_stay_distinct _ H0) as (Hadd & _).
  destruct (task_ids_stay_distinct _
              (Hadd "Call Ana"%string ""%string Low Daily ""%string None None 5))
    as (_ & _ & _ & Hdel).
  exact (Hdel 2).
Defined.

(** X7: for a title, a description, week days and a day of the month that
    fit their columns, [add_task] appends one Pending row with the next id,
    the values given and no completion dates; with ids below the counter,
    deleting that id gives back the rows there were, and leaves [goals]
    alone. *)
Theorem delete_task_undoes_add_task ti de pr ty wd md ed now d :
  fits_tasks_columns ti de wd md ->
  task_ids_ok d ->
  let d1 := add_task ti de pr ty wd md ed now d in
  tasks (delete_task (next_task_id d) d1) = tasks d
  /\ goals (delete_task (next_task_id d) d1) = goals d
  /\ (forall t, t ∈ tasks (delete_task (next_task_id d) d1) ->
        id t <> next_task_id d)
  /\ exists t, tasks d1 = tasks d ++ [t]
               /\ id t = next_task_id d /\ status t = Pending
               /\ title t = ti /\ description t = de
               /\ priority t = pr /\ task_type t = ty
               /\ week_days t = Some wd /\ monthly_date t = md
               /\ end_date t = ed
               /\ last_completed t = None /\ completed_at t = None.
Proof.
  intros _ [Hnd Hlt] d1. subst d1. unfold delete_task, add_task. cbn [tasks goals next_task_id].
  rewrite List.filter_app. simpl. rewrite Z.eqb_refl. simpl.
  rewrite app_nil_r, filter_id_fresh by done.
  split; [done|]. split; [done|]. split.
  - intros t Ht. apply Hlt in Ht. lia.
  - eexists. split; [done|]. done.
Qed.

Lemma delete_task_undoes_add_task_witness :
  tasks (delete_task 2 (add_task "Call Ana" "" Low Daily "" None None 5
                          (Db [watering] 2 [] 1)))
  = [watering].
Proof.
  assert (H0 : task_ids_ok (Db [watering] 2 [] 1)).
  { split.
    - apply NoDup_singleton.
    - intros t Ht. apply list_elem_of_singleton in Ht. subst t. reflexivity. }
  assert (Hfit : fits_tasks_columns "Call Ana" "" "" None).
  { unfold fits_tasks_columns. simpl. lia. }
  exact (proj1 (delete_task_undoes_add_task "Call Ana" "" Low Daily "" None None 5
                  (Db [watering] 2 [] 1) Hfit H0)).
Defined.

(* ---- completing counts once ---- *)
Lemma fmap_unchanged (f : task -> task) (l : list task) :
  (forall x, x ∈ l -> f x = x) -> f <$> l = l.
Proof.
  intros H. induction l as [|x l IH]; simpl; [done|].
  rewrite (H x (list_elem_of_here _ _)). f_equal. apply IH.
  intros y Hy. apply H. by apply list_elem_of_further.
Qed.

Lemma count_after_one_change (P : task -> bool) (f : task -> task) (t : task)
    (l : list task) :
  NoDup (id <$> l) -> t ∈ l ->
  (forall t', id t' <> id t -> f t' = t') ->
  P t = false -> P (f t) = true ->
  length (List.filter P (f <$> l)) = S (length (List.filter P l)).
Proof.
  intros Hnd Hin Hother Hbefore Hafter.
  induction l as [|x l IH]; [by apply elem_of_nil in Hin|].
  simpl in Hnd. apply NoDup_cons in Hnd as [Hx Hnd].
  apply elem_of_cons in Hin as [<-|Hin]; rewrite fmap_cons; cbn [List.filter].
  - rewrite Hafter, Hbefore. cbn [length]. f_equal.
    rewrite fmap_unchanged; [done|]. intros y Hy. apply Hother.
    intros E. apply Hx. rewrite <- E. apply list_elem_of_fmap. eauto.
  - assert (id x <> id t).
    { intros E. apply Hx. rewrite E. apply list_elem_of_fmap. eauto. }
    rewrite Hother by done. destruct (P x); cbn [length]; rewrite IH; done.
Qed.

(** X8: with distinct ids, toggling a Pending task on a day raises
    [get_completed_count] of that day by exactly one, for either period;
    when the window is not computed the count raises before and after. *)
Theorem completing_a_task_raises_the_count p today d t :
  valid today = true ->
  NoDup (id <$> tasks d) ->
  t ∈ tasks d ->
  status t = Pending ->
  match get_completed_count p today d with
  | Ok c => get_completed_count p today (toggle_status today t d) = Ok (c + 1)
  | Raise err =>
      get_completed_count p today (toggle_status today t d) = Raise err
  end.
Proof.
  intros V Hnd Hin Hst. unfold get_completed_count.
  destruct (period_window p today) as [[s e]|err] eqn:Hw; cbn [rbind]; [|done].
  destruct (period_window_contains _ _ _ _ V Hw) as (_ & _ & Hs & He).
  f_equal. unfold toggle_status. rewrite Hst. simpl bool_decide. cbv iota.
  unfold update_task_status. cbn [tasks].
  rewrite (count_after_one_change _ _ t); try done; [lia|..].
  - intros t' Hne. by destruct (Z.eqb_spec (id t') (id t)).
  - unfold completed_between. rewrite Hst. done.
  - rewrite Z.eqb_refl. unfold completed_between, set_status_and_dates. simpl.
    by rewrite Hs, He.
Qed.

Lemma completing_a_task_raises_the_count_witness :
  get_completed_count Weekly_goal (Date 2025 4 22) (Db [done_tomorrow] 2 [] 1)
  = Ok 0
  /\ get_completed_count Weekly_goal (Date 2025 4 22)
       (toggle_status (Date 2025 4 22) done_tomorrow (Db [done_tomorrow] 2 [] 1))
     = Ok 1.
Proof.
  split; [reflexivity|].
  exact (completing_a_task_raises_the_count Weekly_goal (Date 2025 4 22)
           (Db [done_tomorrow] 2 [] 1) done_tomorrow eq_refl
           (NoDup_singleton _) (list_elem_of_here _ _) eq_refl).
Defined.

(** * The calendar in closed form *)

Lemma mapM_fmap {A B} (f : A -> result B) (g : A -> B) l l' :
  (forall a b, a ∈ l -> f a = Ok b -> b = g a) ->
  mapM f l = Ok l' -> l' = g <$> l.
Proof.
  revert l'. induction l as [|a l IH]; intros l' Hg; simpl.
  - intros E. by apply Ok_inj in E.
  - destruct (f a) as [b|] eqn:Ea; [|done]. cbn [rbind].
    destruct (mapM f l) as [bs|] eqn:El; [|done]. cbn [rbind].
    intros E. apply Ok_inj in E. subst l'.
    rewrite (Hg a b (list_elem_of_here _ _) Ea). f_equal.
    apply IH; [|done]. intros a' b' Ha'. apply Hg. by apply list_elem_of_further.
Qed.

Lemma mapM_all_Ok {A B} (f : A -> result B) (g : A -> B) l :
  (forall a, a ∈ l -> f a = Ok (g a)) -> mapM f l = Ok (g <$> l).
Proof.
  induction l as [|a l IH]; intros H; simpl; [done|].
  rewrite (H a (list_elem_of_here _ _)). cbn [rbind].
  rewrite IH; [done|]. intros a' Ha'. apply H. by apply list_elem_of_further.
Qed.

Lemma mapM_Raise {A B} (f : A -> result B) l a err :
  a ∈ l -> f a = Raise err -> (forall a' err', f a' = Raise err' -> err' = err) ->
  mapM f l = Raise err.
Proof.
  intros Hin Ha Hsame. induction l as [|x l IH]; [by apply elem_of_nil in Hin|].
  simpl. destruct (f x) as [b|e] eqn:Ex; cbn [rbind].
  - apply elem_of_cons in Hin as [->|Hin]; [congruence|].
    by rewrite (IH Hin).
  - by rewrite (Hsame x e Ex).
Qed.

(** The date range of the calendar. *)
Lemma date_range_cases today :
  valid today = true ->
  mapM (fun x => add_days today (Z.of_nat x)) (seq 0 15)
  = if toordinal today + 14 <=? MAXORDINAL then Ok (next_15_days today)
    else Raise (OverflowError "date value out of range").
Proof.
  intros V. pose proof (toordinal_range today V) as R.
  destruct (Z.leb_spec (toordinal today + 14) MAXORDINAL) as [H|H].
  - apply mapM_all_Ok. intros x Hx. apply list_elem_of_In, in_seq in Hx.
    apply add_days_ok. lia.
  - apply (mapM_Raise _ _ 14%nat).
    + apply list_elem_of_In, in_seq. lia.
    + unfold add_days. cbv zeta.
      destruct (Z.leb_spec (toordinal today + Z.of_nat 14) MAXORDINAL);
        [lia|]. by rewrite andb_false_r.
    + intros x err. unfold add_days. cbv zeta.
      destruct (_ && _); [done|]. congruence.
Qed.

Lemma next_15_days_NoDup today : NoDup (next_15_days today).
Proof.
  apply (NoDup_fmap_1 toordinal). unfold next_15_days.
  rewrite <- list_fmap_compose.
  apply NoDup_fmap_2_strong; [|apply NoDup_seq].
  intros x y _ _. simpl. rewrite !toordinal_fromordinal. lia.
Qed.

Lemma next_15_days_weeks today :
  weeks_of (next_15_days today)
  = [take 7 (next_15_days today); take 7 (drop 7 (next_15_days today));
     drop 14 (next_15_days today)].
Proof. reflexivity. Qed.

Section calendar_cells_exact.
Variable date_range : list date.
Hypothesis date_range_NoDup : NoDup date_range.

Lemma foldl_append_lookup (c : date -> bool) (t : task) (dr : list date)
    (m : gmap date (list task)) (d : date) :
  NoDup dr ->
  foldl (fun m d => if c d then append_at t d m else m) m dr !! d
  = if bool_decide (d ∈ dr) && c d then (fun l => l ++ [t]) <$> m !! d
    else m !! d.
Proof.
  revert m. induction dr as [|d0 dr IH]; intros m Hnd; simpl; [done|].
  apply NoDup_cons in Hnd as [Hd0 Hnd]. rewrite IH by done.
  destruct (decide (d = d0)) as [->|Hne].
  - rewrite (bool_decide_eq_false_2 (d0 ∈ dr)) by done.
    rewrite (bool_decide_eq_true_2 (d0 ∈ d0 :: dr)) by apply list_elem_of_here.
    simpl. destruct (c d0); [|done]. unfold append_at. by rewrite lookup_alter_eq.
  - assert (Hiff : bool_decide (d ∈ d0 :: dr) = bool_decide (d ∈ dr)).
    { apply bool_decide_ext. rewrite elem_of_cons. tauto. }
    rewrite Hiff.
    assert (Hl : (if c d0 then append_at t d0 m else m) !! d = m !! d).
    { destruct (c d0); [|done]. unfold append_at. by rewrite lookup_alter_ne. }
    by rewrite Hl.
Qed.

Lemma place_lookup (m : gmap date (list task)) (t : task) (d : date) l :
  d ∈ date_range -> m !! d = Some l ->
  place date_range m t !! d
  = Some (if shown_on d t then l ++ [t] else l).
Proof.
  intros Hd Hm. unfold place, shown_on.
  destruct (task_type t).
  - destruct (end_date t) as [e|]; [|by rewrite bool_decide_eq_false_2].
    destruct (decide (e = d)) as [->|Hne].
    + rewrite (bool_decide_eq_true_2 (is_Some (m !! d))) by eauto.
      rewrite bool_decide_eq_true_2 by done.
      unfold append_at. by rewrite lookup_alter_eq, Hm.
    + rewrite (bool_decide_eq_false_2 (Some e = Some d)) by congruence.
      case_bool_decide; [|done]. unfold append_at. by rewrite lookup_alter_ne.
  - rewrite (foldl_append_lookup (fun _ => true)) by done.
    by rewrite bool_decide_eq_true_2, Hm.
  - unfold weekly_on. destruct (week_days t) as [s|]; [|done].
    destruct (PyStr.truthy s); [|done].
    rewrite (foldl_append_lookup
               (fun d => PyStr.mem (strftime_A d) (PyStr.split "," s))) by done.
    rewrite bool_decide_eq_true_2, Hm by done. simpl.
    by destruct (PyStr.mem _ _).
  - destruct (monthly_date t) as [md|]; [|done].
    destruct (negb (md =? 0)); [|done].
    rewrite (foldl_append_lookup (fun d => day d =? md)) by done.
    rewrite bool_decide_eq_true_2, Hm by done. simpl.
    by destruct (day d =? md).
Qed.

Lemma places_lookup (active : list task) (m : gmap date (list task)) d l :
  d ∈ date_range -> m !! d = Some l ->
  foldl (place date_range) m active !! d
  = Some (l ++ List.filter (shown_on d) active).
Proof.
  intros Hd. revert m l.
  induction active as [|t active IH]; intros m l Hm; simpl.
  - by rewrite app_nil_r.
  - rewrite (IH _ _ (place_lookup m t d l Hd Hm)).
    destruct (shown_on d t); [by rewrite <- app_assoc|done].
Qed.

Lemma init_lookup d :
  d ∈ date_range ->
  (list_to_map ((fun d : date => (d, [])) <$> date_range)
     : gmap date (list task)) !! d = Some [].
Proof.
  intros Hd. apply elem_of_list_to_map_1'.
  - intros y Hy. apply list_elem_of_fmap in Hy as (d' & [= _ ->] & _). done.
  - apply list_elem_of_fmap. eauto.
Qed.

End calendar_cells_exact.

Lemma filter_filter_and {A} (P Q : A -> bool) l :
  List.filter Q (List.filter P l) = List.filter (fun x => P x && Q x) l.
Proof.
  induction l as [|x l IH]; simpl; [done|].
  destruct (P x); simpl; [|done]. destruct (Q x); by rewrite IH.
Qed.

(** The calendar in closed form: each cell is the list of the tasks with an
    end date that pass the test of its date, in the order of [tasks]. *)
Lemma create_calendar_view_eq today tasks :
  valid today = true ->
  create_calendar_view today tasks
  = let active := List.filter (fun t => date_truthy (end_date t)) tasks in
    match active with
    | [] => Ok (Calendar_info "No tasks with due dates to display.")
    | _ =>
        if toordinal today + 14 <=? MAXORDINAL then
          Ok (Calendar_grid
                ((fun week : list date =>
                    (fun d => (d, List.filter (shown_on d) active)) <$> week)
                   <$> weeks_of (next_15_days today)))
        else Raise (OverflowError "date value out of range")
    end.
Proof.
  intros V. unfold create_calendar_view. cbv zeta.
  set (active := List.filter _ tasks).
  destruct active as [|t0 active'] eqn:Eactive; [done|].
  rewrite <- Eactive. clear Eactive t0 active'.
  rewrite (date_range_cases today V).
  destruct (_ <=? _); [|done]. cbn [rbind]. do 2 f_equal.
  apply list_fmap_ext. intros i week Hweek.
  apply list_fmap_ext. intros j d Hd. f_equal.
  apply list_elem_of_lookup_2 in Hweek, Hd.
  pose proof (weeks_of_elem _ _ _ Hweek Hd) as Hin.
  rewrite lookup_total_alt.
  rewrite (places_lookup _ (next_15_days_NoDup today) active _ d [] Hin
             (init_lookup _ d Hin)).
  done.
Qed.

(** X9: [create_calendar_view] shows the notice when no task has an end
    date; otherwise, when the fourteenth day after today is a date, it shows
    three weeks of 7, 7 and 1 days, from today on, each day with the tasks
    that have an end date and pass the test of the day, in the order of
    [tasks]; otherwise it raises OverflowError. *)
Theorem calendar_grid_in_closed_form today tasks :
  valid today = true ->
  let active := List.filter (fun t => date_truthy (end_date t)) tasks in
  create_calendar_view today tasks
  = (if bool_decide (active = []) then
       Ok (Calendar_info "No tasks with due dates to display.")
     else if toordinal today + 14 <=? MAXORDINAL then
       Ok (Calendar_grid
             ((fun week : list date =>
                 (fun d => (d, List.filter (shown_on d) active)) <$> week)
                <$> weeks_of (next_15_days today)))
     else Raise (OverflowError "date value out of range"))
  /\ length <$> weeks_of (next_15_days today) = [7; 7; 1]%nat
  /\ concat (weeks_of (next_15_days today)) = next_15_days today
  /\ head (next_15_days today) = Some today
  /\ (forall i d, next_15_days today !! i = Some d ->
        toordinal d = toordinal today + Z.of_nat i).
Proof.
  intros V active. split; [|split; [|split; [|split]]].
  - rewrite (create_calendar_view_eq today tasks V). cbv zeta. fold active.
    destruct active; [done|]. by rewrite bool_decide_eq_false_2.
  - reflexivity.
  - reflexivity.
  - unfold next_15_days. simpl. rewrite Z.add_0_r.
    by rewrite fromordinal_toordinal.
  - intros i d Hd. unfold next_15_days in Hd.
    rewrite list_lookup_fmap in Hd.
    destruct (seq 0 15 !! i) as [x|] eqn:Ex; [|done].
    simpl in Hd. injection Hd as <-. rewrite toordinal_fromordinal.
    apply lookup_seq in Ex as [-> _]. lia.
Qed.

Lemma calendar_grid_in_closed_form_witness :
  create_calendar_view (Date 9999 12 20) [dentist]
  = Raise (OverflowError "date value out of range")
  /\ create_calendar_view (Date 9999 12 20) [daily_walk]
     = Ok (Calendar_info "No tasks with due dates to display.").
Proof.
  split.
  - exact (proj1 (calendar_grid_in_closed_form (Date 9999 12 20) [dentist]
                    eq_refl)).
  - reflexivity.
Defined.

(** X10: a task is in the cell of a date exactly when it is in [tasks], has
    an end date and passes the test of the date: a One-time task when the
    date is its end date, a Daily task with an end date on every date. *)
Theorem calendar_cell_members today tasks weeks :
  valid today = true ->
  create_calendar_view today tasks = Ok (Calendar_grid weeks) ->
  forall week d cell t,
    week ∈ weeks -> (d, cell) ∈ week ->
    (t ∈ cell <-> t ∈ tasks /\ end_date t <> None /\ shown_on d t = true)
    /\ (task_type t = One_time -> (t ∈ cell <-> t ∈ tasks /\ end_date t = Some d))
    /\ (task_type t = Daily -> (t ∈ cell <-> t ∈ tasks /\ end_date t <> None)).
Proof.
  intros V Hview week d cell t Hweek Hcell.
  rewrite (create_calendar_view_eq today tasks V) in Hview. cbv zeta in Hview.
  set (active := List.filter _ tasks) in Hview.
  assert (Hcells : cell = List.filter (shown_on d) active).
  { destruct active as [|t0 active'] eqn:Eactive; [done|].
    rewrite <- Eactive in *. destruct (_ <=? _); [|done].
    set (grid := _ <$> weeks_of _) in Hview.
    assert (weeks = grid) as -> by congruence. subst grid.
    apply list_elem_of_fmap in Hweek as (week0 & -> & _).
    by apply list_elem_of_fmap in Hcell as (d0 & [= -> ->] & _). }
  assert (Hiff : t ∈ cell
                 <-> t ∈ tasks /\ end_date t <> None /\ shown_on d t = true).
  { rewrite Hcells. unfold active.
    rewrite !list_elem_of_In, !filter_In, <- !list_elem_of_In.
    destruct (end_date t); simpl; intuition congruence. }
  split; [done|]. rewrite Hiff. unfold shown_on. split; intros ->.
  - rewrite bool_decide_eq_true. intuition congruence.
  - tauto.
Qed.

Lemma calendar_cell_members_witness :
  exists weeks,
    create_calendar_view (Date 2025 4 23) [daily_walk; dentist]
    = Ok (Calendar_grid weeks)
    /\ forall week cell, week ∈ weeks -> (Date 2025 4 25, cell) ∈ week ->
                         dentist ∈ cell.
Proof.
  destruct (create_calendar_view (Date 2025 4 23) [daily_walk; dentist])
    as [[msg|weeks]|] eqn:E.
  - vm_compute in E. discriminate E.
  - exists weeks. split; [reflexivity|].
    intros week cell Hweek Hcell.
    destruct (calendar_cell_members (Date 2025 4 23) [daily_walk; dentist]
                weeks eq_refl E week (Date 2025 4 25) cell dentist Hweek Hcell)
      as [H _].
    apply H. split; [|split; [discriminate|reflexivity]].
    apply list_elem_of_further, list_elem_of_here.
  - vm_compute in E. discriminate E.
Defined.

(** * Rows written by the forms *)

Lemma fields_fit_type_form (f : add_form) i ti de st lc ca cr :
  fields_fit_type
    (Task i ti de st (form_priority f) (form_task_type f)
       (Some match form_task_type f with
             | Weekly => PyStr.join "," (form_days f)
             | _ => ""%string
             end)
       match form_task_type f with Monthly => Some (form_day_of_month f) | _ => None end
       match form_task_type f with One_time => Some (form_end_date f) | _ => None end
       lc ca cr).
Proof. unfold fields_fit_type. simpl. destruct (form_task_type f); naive_solver. Qed.

(** X11: if every row has the recurrence fields of its type (an end date
    for One-time only, a day of the month for Monthly only, week days for
    Weekly only), so has every row after "Add Task", "Save Changes", a
    status update and a deletion. *)
Theorem forms_keep_fields_fitting_the_type d :
  (forall t, t ∈ tasks d -> fields_fit_type t) ->
  (forall f now t, t ∈ tasks (add_task_button f now d).1 -> fields_fit_type t)
  /\ (forall t0 f editing t,
        t ∈ tasks (save_changes_button t0 f editing d).1.1 -> fields_fit_type t)
  /\ (forall i st lc t,
        t ∈ tasks (update_task_status i st lc d) -> fields_fit_type t)
  /\ (forall i t, t ∈ tasks (delete_task i d) -> fields_fit_type t).
Proof.
  intros Hd. split; [|split; [|split]].
  - intros f now t. unfold add_task_button.
    destruct (PyStr.truthy _); cbn [fst]; [|apply Hd].
    unfold add_task. cbn [tasks].
    intros [Ht|Ht%list_elem_of_singleton]%elem_of_app; [by apply Hd|].
    subst t. apply fields_fit_type_form.
  - intros t0 f editing t. unfold save_changes_button.
    destruct (PyStr.truthy _); cbn [fst]; [|apply Hd].
    unfold edit_task. cbn [tasks].
    intros (t1 & -> & Ht1)%list_elem_of_fmap.
    destruct (_ =? _); [apply fields_fit_type_form|by apply Hd].
  - intros i st lc t. unfold update_task_status. cbn [tasks].
    intros (t1 & -> & Ht1)%list_elem_of_fmap. apply Hd in Ht1.
    destruct (_ =? _); [|done]. by destruct lc.
  - intros i t. unfold delete_task. cbn [tasks].
    intros [Ht _]%list_elem_of_In%filter_In. by apply Hd, list_elem_of_In.
Qed.

Lemma forms_keep_fields_fitting_the_type_witness :
  fields_fit_type
    (Task 3 "Gym" "" Pending Low Weekly (Some "Monday,Friday"%string) None None
          None None 0).
Proof.
  assert (H0 : forall t, t ∈ tasks (Db [dentist] 3 [] 1) -> fields_fit_type t).
  { intros t Ht. apply list_elem_of_singleton in Ht. subst t.
    unfold fields_fit_type. simpl. naive_solver. }
  apply (proj1 (forms_keep_fields_fitting_the_type _ H0)
           (Add_form "Gym" "" Low Weekly ["Monday"; "Friday"]%string 1
                     (Date 2025 4 22)) 0).
  apply list_elem_of_further, list_elem_of_here.
Defined.

(** * Reminders *)

Lemma filter_and_pending (P : task -> option bool) (l : list task) :
  List.filter (fun t => Sql.holds (Sql.and3 (P t) (Sql.eq3 (Some (status t)) Pending))) l
  = List.filter (fun t => bool_decide (status t = Pending))
      (List.filter (fun t => Sql.holds (P t)) l).
Proof.
  rewrite filter_filter_and. apply filter_ext_eq. intros t.
  destruct (P t) as [[]|], (status t); reflexivity.
Qed.

Lemma filter_comm {A} (P Q : A -> bool) l :
  List.filter P (List.filter Q l) = List.filter Q (List.filter P l).
Proof.
  rewrite !filter_filter_and. apply filter_ext_eq. intros x. apply andb_comm.
Qed.

(** X12: the list [send_evening_reminder] collects is the list
    [send_daily_summary] collects with the tasks that are not Pending left
    out, in the same order. *)
Theorem pending_today_is_pending_part_of_tasks_today today rows :
  pending_today today rows
  = List.filter (fun t => bool_decide (status t = Pending))
      (tasks_today today rows).
Proof.
  unfold pending_today, tasks_today. cbv zeta.
  rewrite !List.filter_app.
  rewrite (filter_and_pending
             (fun t => Sql.and3 (Sql.eq3 (Some (task_type t)) One_time)
                                (Sql.eq3 (end_date t) today))).
  rewrite (filter_and_pending (fun t => Sql.eq3 (Some (task_type t)) Daily)).
  rewrite (filter_and_pending (fun t => Sql.eq3 (Some (task_type t)) Weekly)).
  rewrite (filter_and_pending
             (fun t => Sql.and3 (Sql.eq3 (Some (task_type t)) Monthly)
                                (Sql.eq3 (monthly_date t) (day today)))).
  do 2 f_equal. f_equal. apply filter_comm.
Qed.

(** X13: [send_evening_reminder] raises exactly when its database part
    does, with that error and before anything is sent.  Otherwise it
    returns: with nothing pending today (True, "No pending tasks") and
    nothing sent; with pending tasks what [send_sms] returns for the
    evening message of those tasks, asking for at most one message, and for
    exactly that message when the number has the format checked and the
    client is constructed. *)
Theorem send_evening_reminder_outcomes w rnd today conn tr :
  match conn with
  | Raise e => send_evening_reminder w rnd today conn tr = (Raise e, tr)
  | Ok d =>
      let pending := pending_today today (tasks d) in
      (pending = [] ->
       send_evening_reminder w rnd today conn tr
       = (Ok (true, "No pending tasks"%string), tr))
      /\ (pending <> [] ->
          send_evening_reminder w rnd today conn tr
          = send_sms w (evening_message rnd pending) tr)
      /\ exists ok msg new,
           send_evening_reminder w rnd today conn tr = (Ok (ok, msg), tr ++ new)
           /\ (creates new <= 1)%nat
           /\ (forall b from_ to,
                 Message_create b from_ to ∈ new ->
                 pending <> [] /\ b = evening_message rnd pending
                 /\ to = to_number w)
           /\ (pending <> [] -> e164 (to_number w) = true ->
               is_ok (get_twilio_client w tr).1 = true ->
               exists rest,
                 new = Message_create (evening_message rnd pending)
                                      (from_number w) (to_number w) :: rest)
  end.
Proof.
  destruct conn as [d|e]; [|reflexivity].
  unfold send_evening_reminder, io_bind, io_lift. cbv zeta.
  destruct (pending_today today (tasks d)) as [|t l] eqn:E.
  - split; [done|]. split; [done|].
    exists true, "No pending tasks"%string, [].
    rewrite app_nil_r. split; [done|].
    split; [cbv [creates List.filter length]; lia|].
    split; [by intros ??? ?%elem_of_nil|done].
  - split; [done|]. split; [done|].
    destruct (send_sms_events w (evening_message rnd (t :: l)) tr)
      as (ok & msg & new & Hs & Hc & Hb & Hsent & _).
    exists ok, msg, new. split; [done|]. split; [done|]. split.
    + intros b f to Hin. split; [done|].
      by apply Hb in Hin as (-> & _ & -> & _).
    + intros _. exact Hsent.
Qed.

Lemma send_evening_reminder_outcomes_witness :
  send_evening_reminder twilio_up 0 (Date 2025 4 24)
    (Ok (Db [daily_walk; watering] 3 [] 1)) []
  = (Ok (true, "SM1"%string),
     [Message_create (evening_message 0 [daily_walk])
                     "+15550001111" "+15557654321"])
  /\ send_evening_reminder twilio_up 0 (Date 2025 4 24)
       (Raise (Error "2003: Can't connect to MySQL server")) []
     = (Raise (Error "2003: Can't connect to MySQL server"), []).
Proof.
  split.
  - destruct (send_evening_reminder_outcomes twilio_up 0 (Date 2025 4 24)
                (Ok (Db [daily_walk; watering] 3 [] 1)) [])
      as (_ & Hsend & _).
    rewrite Hsend by done. reflexivity.
  - exact (send_evening_reminder_outcomes twilio_up 0 (Date 2025 4 24)
             (Raise (Error "2003: Can't connect to MySQL server")) []).
Defined.

Lemma string_app_cons c (s1 s2 : string) :
  String c s1 +:+ s2 = String c (s1 +:+ s2).
Proof. reflexivity. Qed.

Lemma string_length_app (s1 s2 : string) :
  String.length (s1 +:+ s2) = (String.length s1 + String.length s2)%nat.
Proof.
  induction s1 as [|c s1 IH]; [done|].
  rewrite string_app_cons. simpl. by rewrite IH.
Qed.

Lemma string_app_assoc (s1 s2 s3 : string) :
  (s1 +:+ s2) +:+ s3 = s1 +:+ (s2 +:+ s3).
Proof.
  induction s1 as [|c s1 IH]; [done|]. rewrite !string_app_cons. by rewrite IH.
Qed.

Lemma string_app_nil_r (s : string) : s +:+ "" = s.
Proof.
  induction s as [|c s IH]; [done|]. rewrite string_app_cons. by rewrite IH.
Qed.

Lemma str_take_length n s :
  String.length (str_take n s) = Nat.min n (String.length s).
Proof.
  unfold str_take. revert s. induction n as [|n IH]; intros [|c s]; simpl; try done.
  by rewrite IH.
Qed.

Lemma str_take_all n s :
  (String.length s <= n)%nat -> str_take n s = s.
Proof.
  unfold str_take. revert s. induction n as [|n IH]; intros [|c s]; simpl;
    try done; [lia|].
  intros H. rewrite IH; [done|lia].
Qed.

Lemma priority_name_length p : (3 <= String.length (priority_name p) <= 6)%nat.
Proof. destruct p; simpl; lia. Qed.

Lemma reminder_message_length t :
  (String.length (reminder_message t) <= String.length (title t) + 140)%nat.
Proof.
  unfold reminder_message. cbv zeta.
  pose proof (priority_name_length (priority t)).
  pose proof (str_take_length 100 (description t)).
  destruct (PyStr.truthy _); [destruct (_ <? _)%nat|];
    rewrite !string_length_app; simpl; lia.
Qed.

(** X14: [send_task_reminder] raises exactly when its database part does,
    with that error and before anything is sent.  Otherwise it returns: for
    an id that no row has (False, "Task not found") with nothing sent; for
    the id of a row what [send_sms] returns for the reminder of the first
    such row.  A message it asks for is that reminder, at most 140
    characters longer than the title, and carries the whole description
    when that has at most 100 characters; it is asked for when the number
    has the format checked and the client is constructed. *)
Theorem send_task_reminder_outcomes w task_id conn tr :
  match conn with
  | Raise e => send_task_reminder w task_id conn tr = (Raise e, tr)
  | Ok d =>
      ((forall t, t ∈ tasks d -> id t <> task_id) ->
       send_task_reminder w task_id conn tr
       = (Ok (false, "Task not found"%string), tr))
      /\ (forall l1 t l2,
            tasks d = l1 ++ t :: l2 -> id t = task_id ->
            (forall u, u ∈ l1 -> id u <> task_id) ->
            send_task_reminder w task_id conn tr
            = send_sms w (reminder_message t) tr
            /\ (e164 (to_number w) = true ->
                is_ok (get_twilio_client w tr).1 = true ->
                exists r rest,
                  send_task_reminder w task_id conn tr
                  = (r, tr ++ Message_create (reminder_message t)
                                  (from_number w) (to_number w) :: rest)))
      /\ exists ok msg new,
           send_task_reminder w task_id conn tr = (Ok (ok, msg), tr ++ new)
           /\ (creates new <= 1)%nat
           /\ forall b from_ to,
                Message_create b from_ to ∈ new ->
                to = to_number w
                /\ exists t,
                     t ∈ tasks d /\ id t = task_id
                     /\ b = reminder_message t
                     /\ (String.length b <= String.length (title t) + 140)%nat
                     /\ ((String.length (description t) <= 100)%nat ->
                         b = "REMINDER: " +:+ title t +:+ nl
                             +:+ "Priority: " +:+ priority_name (priority t)
                             +:+ nl
                             +:+ (if PyStr.truthy (description t)
                                  then "Details: " +:+ description t
                                  else ""))
  end.
Proof.
  destruct conn as [d|e]; [|reflexivity].
  unfold send_task_reminder, io_bind, io_lift.
  split; [|split].
  - intros Hnone.
    destruct (List.find _ (tasks d)) as [t|] eqn:Efind; [|done].
    apply find_some in Efind as [Hin Hid%Z.eqb_eq].
    by apply list_elem_of_In, Hnone in Hin.
  - intros l1 t l2 Hrows Hid Hfirst.
    assert (Efind : List.find (fun t => id t =? task_id) (tasks d) = Some t).
    { rewrite Hrows. clear Hrows.
      induction l1 as [|u l1 IH]; simpl.
      - by rewrite (proj2 (Z.eqb_eq _ _) Hid).
      - destruct (Z.eqb_spec (id u) task_id) as [E|_].
        + by apply (Hfirst u (list_elem_of_here _ _)) in E.
        + apply IH. intros v Hv. apply Hfirst. by apply list_elem_of_further. }
    rewrite Efind. split; [done|]. intros Hnum Hclient.
    destruct (send_sms_events w (reminder_message t) tr)
      as (ok & msg & new & Hs & _ & _ & Hsent & _).
    destruct (Hsent Hnum Hclient) as (rest & ->). eauto.
  - destruct (List.find _ (tasks d)) as [t|] eqn:Efind.
    + apply find_some in Efind as [Hin Hid]. apply Z.eqb_eq in Hid.
      apply list_elem_of_In in Hin.
      destruct (send_sms_events w (reminder_message t) tr)
        as (ok & msg & new & Hs & Hc & Hb & _).
      exists ok, msg, new. split; [done|]. split; [done|].
      intros b f to Hcreate. apply Hb in Hcreate as (-> & _ & -> & _).
      split; [done|].
      exists t. split; [done|]. split; [done|]. split; [done|].
      split; [apply reminder_message_length|].
      intros Hlen. unfold reminder_message. cbv zeta.
      destruct (PyStr.truthy _).
      * destruct (Nat.ltb_spec 100 (String.length (description t))); [lia|].
        rewrite str_take_all by done. by rewrite !string_app_assoc.
      * by rewrite string_app_nil_r.
    + exists false, "Task not found"%string, [].
      rewrite app_nil_r. split; [done|].
      split; [cbv [creates List.filter length]; lia|].
      by intros ??? ?%elem_of_nil.
Qed.

Lemma send_task_reminder_outcomes_witness :
  send_task_reminder twilio_up 2 (Ok (Db [daily_walk; dentist] 3 [] 1)) []
  = (Ok (true, "SM1"%string),
     [Message_create ("REMINDER: Dentist" +:+ nl +:+ "Priority: High" +:+ nl)
                     "+15550001111" "+15557654321"])
  /\ send_task_reminder twilio_up 2
       (Raise (Error "2003: Can't connect to MySQL server")) []
     = (Raise (Error "2003: Can't connect to MySQL server"), []).
Proof.
  split.
  - destruct (send_task_reminder_outcomes twilio_up 2
                (Ok (Db [daily_walk; dentist] 3 [] 1)) [])
      as (_ & Hsend & _).
    destruct (Hsend [daily_walk] dentist [] eq_refl eq_refl) as [-> _].
    + intros u ->%list_elem_of_singleton. simpl. lia.
    + reflexivity.
  - exact (send_task_reminder_outcomes twilio_up 2
             (Raise (Error "2003: Can't connect to MySQL server")) []).
Defined.

(** X15: the loop that lists tasks in a reminder writes one numbered line
    for each of the first five tasks, and one more line, with the number of
    the remaining tasks, exactly when there are more than five. *)
Theorem task_lines_name_five_and_count_the_rest l :
  task_lines (length l) 1 l
  = String.concat ""
      (imap (fun i t => task_line (S i) t) (take 5 l))
    +:+ (if (5 <? length l)%nat
         then "...and " +:+ pretty (Z.of_nat (length l) - 5) +:+ " more" +:+ nl
         else "").
Proof.
  destruct l as [|t1 [|t2 [|t3 [|t4 [|t5 [|t6 l]]]]]];
    cbn [task_lines take imap String.concat length Nat.leb Nat.eqb Nat.ltb];
    rewrite ?string_app_assoc, ?string_app_nil_r; reflexivity.
Qed.

(** * Notification settings *)




(** * The list view *)

Lemma key_leb_total k1 k2 : key_leb k1 k2 = true \/ key_leb k2 k1 = true.
Proof.
  destruct k1 as [[c1 r1] t1], k2 as [[c2 r2] t2]. unfold key_leb.
  destruct c1, c2; simpl; try tauto;
    rewrite (Z.eqb_sym r2 r1);
    (destruct (Z.eqb_spec r1 r2); simpl;
     [apply String.leb_total
     |destruct (Z.ltb_spec r1 r2), (Z.ltb_spec r2 r1); try tauto; lia]).
Qed.

Lemma string_leb_trans s1 s2 s3 :
  String.leb s1 s2 = true -> String.leb s2 s3 = true -> String.leb s1 s3 = true.
Proof.
  intros H1 H2. apply Is_true_true.
  apply (transitivity (R := String.le) (y := s2)); by apply Is_true_true.
Qed.

Lemma key_leb_trans k1 k2 k3 :
  key_leb k1 k2 = true -> key_leb k2 k3 = true -> key_leb k1 k3 = true.
Proof.
  destruct k1 as [[c1 r1] t1], k2 as [[c2 r2] t2], k3 as [[c3 r3] t3].
  unfold key_leb.
  destruct c1, c2, c3; simpl; try done;
    destruct (Z.eqb_spec r1 r2), (Z.eqb_spec r2 r3), (Z.eqb_spec r1 r3);
    simpl; rewrite ?Z.ltb_lt; try lia; try done; subst;
    try (intros; by eapply string_leb_trans); try lia.
Qed.

Lemma insert_by_key_Permutation t l : Permutation (insert_by_key t l) (t :: l).
Proof.
  induction l as [|u l IH]; cbn [insert_by_key]; [done|].
  destruct (key_leb (sort_key t) (sort_key u)); [done|].
  rewrite IH. apply perm_swap.
Qed.

Lemma sorted_by_key_Permutation l : Permutation (sorted_by_key l) l.
Proof.
  induction l as [|t l IH]; simpl; [done|].
  rewrite insert_by_key_Permutation. by constructor.
Qed.

Lemma insert_by_key_sorted t l :
  StronglySorted key_le l -> StronglySorted key_le (insert_by_key t l).
Proof.
  induction 1 as [|u l Hl IH Hu]; cbn [insert_by_key]; [repeat constructor|].
  destruct (key_leb (sort_key t) (sort_key u)) eqn:E.
  - constructor; [by constructor|]. constructor; [done|].
    eapply Forall_impl; [exact Hu|]. intros v Hv. unfold key_le in *.
    by eapply key_leb_trans.
  - constructor; [done|].
    assert (Hut : key_le u t).
    { unfold key_le. destruct (key_leb_total (sort_key t) (sort_key u)); congruence. }
    rewrite (Forall_forall (key_le u)). intros v Hv.
    rewrite insert_by_key_Permutation in Hv.
    apply elem_of_cons in Hv as [->|Hv]; [done|].
    rewrite Forall_forall in Hu. by apply Hu.
Qed.

Lemma sorted_by_key_sorted l : StronglySorted key_le (sorted_by_key l).
Proof.
  induction l as [|t l IH]; simpl; [constructor|]. by apply insert_by_key_sorted.
Qed.

Lemma StronglySorted_lookup_lt {A} (R : A -> A -> Prop) (l : list A) i j x y :
  StronglySorted R l -> (i < j)%nat -> l !! i = Some x -> l !! j = Some y ->
  R x y.
Proof.
  intros Hs. revert i j. induction Hs as [|a l Hl IH Ha]; intros i j Hij Hi Hj.
  - done.
  - destruct j as [|j]; [lia|]. simpl in Hj. destruct i as [|i].
    + simpl in Hi. injection Hi as <-.
      rewrite Forall_forall in Ha. apply Ha. by eapply list_elem_of_lookup_2.
    + simpl in Hi. apply (IH i j); [lia|done..].
Qed.

(** X18: the list view shows exactly the tasks whose title contains the
    search text, without regard to case, and that have the chosen status;
    Pending tasks come before Completed ones, within a status higher
    priorities come first, and within a priority titles are in order. *)
Theorem list_view_is_sorted_selection search status_filter tasks :
  let shown := list_view search status_filter tasks in
  (forall t,
     t ∈ shown
     <-> t ∈ tasks
         /\ (PyStr.truthy search = true ->
             contains (lower search) (lower (title t)) = true)
         /\ (forall st, status_filter = Some st -> status t = st))
  /\ (length shown <= length tasks)%nat
  /\ (forall i j t u,
        (i < j)%nat -> shown !! i = Some t -> shown !! j = Some u ->
        (status t = Completed -> status u = Completed)
        /\ (status t = status u ->
            priority_rank (priority t) <= priority_rank (priority u))
        /\ (status t = status u -> priority t = priority u ->
            String.leb (title t) (title u) = true)).
Proof.
  intros shown. subst shown. unfold list_view. cbv zeta.
  set (f1 := if PyStr.truthy search then _ else tasks).
  set (f2 := match status_filter with Some st => _ | None => f1 end).
  pose proof (sorted_by_key_Permutation f2) as Hperm.
  split; [|split].
  - intros t. rewrite Hperm. subst f2 f1.
    destruct status_filter as [st|], (PyStr.truthy search);
      rewrite ?list_elem_of_In, ?filter_In, ?bool_decide_eq_true,
        <- ?list_elem_of_In; naive_solver.
  - rewrite Hperm. subst f2 f1.
    destruct status_filter as [st|], (PyStr.truthy search);
      repeat (etrans; [apply filter_length_le|]); done.
  - intros i j t u Hij Hi Hj.
    pose proof (sorted_by_key_sorted f2) as Hs.
    assert (Hle : key_le t u).
    { by apply (StronglySorted_lookup_lt _ _ i j t u Hs). }
    unfold key_le, key_leb, sort_key in Hle.
    destruct (status t), (status u), (priority t), (priority u);
      simpl in Hle; try done; repeat split; try done; try lia.
Qed.

(** * The calendar and the forms *)

(** A cell of a computed grid, in closed form. *)
Lemma calendar_cell_filter today tasks weeks week d cell :
  valid today = true ->
  create_calendar_view today tasks = Ok (Calendar_grid weeks) ->
  week ∈ weeks -> (d, cell) ∈ week ->
  cell = List.filter (fun t => date_truthy (end_date t) && shown_on d t) tasks.
Proof.
  intros V Hview Hweek Hcell.
  rewrite (create_calendar_view_eq today tasks V) in Hview. cbv zeta in Hview.
  rewrite <- filter_filter_and.
  set (active := List.filter _ tasks) in *.
  destruct active as [|t0 active'] eqn:Eactive; [done|].
  rewrite <- Eactive in *. destruct (_ <=? _); [|done].
  set (grid := _ <$> weeks_of _) in Hview.
  assert (weeks = grid) as -> by congruence. subst grid.
  apply list_elem_of_fmap in Hweek as (week0 & -> & _).
  by apply list_elem_of_fmap in Hcell as (d0 & [= -> ->] & _).
Qed.

(** X19: when every row has the recurrence fields of its type, as the
    forms write them, the cell of a date holds exactly the One-time tasks
    with that end date, in the order of [tasks]: recurring tasks are in no
    cell. *)
Theorem calendar_shows_one_time_tasks_on_their_due_date today tasks weeks :
  valid today = true ->
  (forall t, t ∈ tasks -> fields_fit_type t) ->
  create_calendar_view today tasks = Ok (Calendar_grid weeks) ->
  forall week d cell,
    week ∈ weeks -> (d, cell) ∈ week ->
    cell = List.filter
             (fun t => bool_decide (task_type t = One_time)
                       && bool_decide (end_date t = Some d)) tasks.
Proof.
  intros V Hfit Hview week d cell Hweek Hcell.
  rewrite (calendar_cell_filter _ _ _ _ _ _ V Hview Hweek Hcell).
  clear Hview. induction tasks as [|t tasks IH]; [done|].
  cbn [List.filter].
  rewrite IH by (intros t' Ht'; apply Hfit; by apply list_elem_of_further).
  destruct (Hfit t (list_elem_of_here _ _)) as (He & _ & _).
  assert (E : date_truthy (end_date t) && shown_on d t
              = bool_decide (task_type t = One_time)
                && bool_decide (end_date t = Some d)).
  { unfold shown_on. destruct (task_type t) eqn:Ety.
    - rewrite (bool_decide_eq_true_2 (One_time = One_time)) by done.
      by destruct (end_date t).
    - destruct (end_date t); [|done]. exfalso. by assert (Daily = One_time) by (apply He; done).
    - destruct (end_date t); [|done]. exfalso. by assert (Weekly = One_time) by (apply He; done).
    - destruct (end_date t); [|done]. exfalso. by assert (Monthly = One_time) by (apply He; done). }
  by rewrite E.
Qed.

Lemma calendar_shows_one_time_tasks_on_their_due_date_witness :
  exists weeks,
    create_calendar_view (Date 2025 4 23) [daily_walk; dentist]
    = Ok (Calendar_grid weeks)
    /\ forall week cell,
         week ∈ weeks -> (Date 2025 4 25, cell) ∈ week -> cell = [dentist].
Proof.
  destruct (create_calendar_view (Date 2025 4 23) [daily_walk; dentist])
    as [[msg|weeks]|] eqn:E.
  - vm_compute in E. discriminate E.
  - exists weeks. split; [reflexivity|].
    intros week cell Hweek Hcell.
    assert (Hfit : forall t, t ∈ [daily_walk; dentist] -> fields_fit_type t).
    { intros t Ht. apply elem_of_cons in Ht as [->|Ht%list_elem_of_singleton];
        [|subst t]; unfold fields_fit_type; simpl; naive_solver. }
    exact (calendar_shows_one_time_tasks_on_their_due_date (Date 2025 4 23)
             [daily_walk; dentist] weeks eq_refl Hfit E week (Date 2025 4 25)
             cell Hweek Hcell).
  - vm_compute in E. discriminate E.
Defined.



(** * Deleting and editing *)

Lemma list_view_subset search status_filter tasks t :
  t ∈ list_view search status_filter tasks -> t ∈ tasks.
Proof.
  unfold list_view. cbv zeta. rewrite sorted_by_key_Permutation.
  destruct status_filter as [st|], (PyStr.truthy search);
    rewrite ?list_elem_of_In, ?filter_In, <- ?list_elem_of_In; tauto.
Qed.

Lemma pending_today_subset today rows t :
  t ∈ pending_today today rows -> t ∈ rows.
Proof.
  unfold pending_today. cbv zeta.
  rewrite !elem_of_app, !list_elem_of_In, !filter_In. tauto.
Qed.

(** X21: after [delete_task], a task with the deleted id is in no row, in
    neither reminder list, in no list view and in no calendar cell, a
    reminder for the id that reads this database finds no task, and
    [goals] is unchanged. *)
Theorem deleted_task_is_in_no_view task_id d t :
  id t = task_id ->
  let d' := delete_task task_id d in
  t ∉ tasks d'
  /\ goals d' = goals d
  /\ (forall today, t ∉ tasks_today today (tasks d'))
  /\ (forall today, t ∉ pending_today today (tasks d'))
  /\ (forall search status_filter, t ∉ list_view search status_filter (tasks d'))
  /\ (forall today weeks week day cell,
        create_calendar_view today (tasks d') = Ok (Calendar_grid weeks) ->
        week ∈ weeks -> (day, cell) ∈ week -> t ∉ cell)
  /\ (forall w tr,
        send_task_reminder w task_id (Ok d') tr
        = (Ok (false, "Task not found"%string), tr)).
Proof.
  intros Hid d'.
  assert (Hgone : forall u, u ∈ tasks d' -> id u <> task_id).
  { intros u Hu. subst d'. unfold delete_task in Hu. cbn [tasks] in Hu.
    apply list_elem_of_In, filter_In in Hu as [_ Hu].
    apply negb_true_iff, Z.eqb_neq in Hu. done. }
  assert (Hnot : t ∉ tasks d') by (intros Hin; by apply Hgone in Hin).
  split; [done|]. split; [done|].
  split; [intros today Hin; by apply tasks_today_spec in Hin as [? _]|].
  split; [intros today Hin; by apply pending_today_subset in Hin|].
  split; [intros search sf Hin; by apply list_view_subset in Hin|].
  split.
  - intros today weeks week day cell Hview Hweek Hcell Hin.
    by destruct (calendar_cell _ _ _ _ _ _ _ Hview Hweek Hcell Hin) as (? & _).
  - intros w tr. unfold send_task_reminder, io_bind, io_lift.
    destruct (List.find _ (tasks d')) as [u|] eqn:Efind; [|done].
    apply find_some in Efind as [Hin Hu%Z.eqb_eq].
    by apply list_elem_of_In, Hgone in Hin.
Qed.

Lemma deleted_task_is_in_no_view_witness :
  tasks (delete_task 2 (Db [daily_walk; dentist] 3 [] 1)) = [daily_walk]
  /\ dentist ∉ tasks (delete_task 2 (Db [daily_walk; dentist] 3 [] 1)).
Proof.
  split; [reflexivity|].
  exact (proj1 (deleted_task_is_in_no_view 2 (Db [daily_walk; dentist] 3 [] 1)
                  dentist eq_refl)).
Defined.




(** * The dashboard: this week and the priority chart *)

(** X23: the "This Week" metric of the dashboard is computed from the same
    Monday-to-Sunday window as a weekly goal, and raises exactly when that
    window does. When it is computed, completed <= total <= number of tasks,
    every task of today's list is among the week's tasks, and a One-time
    task is counted only with a due date inside the window. *)
Theorem this_week_counts_todays_tasks today tasks :
  valid today = true ->
  match period_window Weekly_goal today with
  | Ok (s, e) =>
      exists l c n,
        week_tasks today tasks = Ok l
        /\ this_week today tasks = Ok (c, n)
        /\ 0 <= c <= n /\ n = Z.of_nat (length l) /\ n <= Z.of_nat (length tasks)
        /\ (forall t, t ∈ tasks_today today tasks -> t ∈ l)
        /\ (forall t, t ∈ l ->
              t ∈ tasks
              /\ (task_type t = One_time ->
                  exists due, end_date t = Some due
                              /\ PyDate.leb s due = true
                              /\ PyDate.leb due e = true))
  | Raise err =>
      week_tasks today tasks = Raise err /\ this_week today tasks = Raise err
  end.
Proof.
  intros V. unfold this_week, week_tasks.
  destruct (period_window Weekly_goal today) as [[s e]|err] eqn:Hw.
  - destruct (period_window_contains _ _ _ _ V Hw) as (_ & _ & Hs & He).
    unfold period_window in Hw.
    destruct (sub_days today (weekday today)) as [s0|] eqn:Es; [|done].
    cbn [rbind] in Hw |- *.
    destruct (add_days s0 6) as [e0|] eqn:Ee; [|done].
    cbn [rbind] in Hw |- *. apply Ok_inj in Hw. injection Hw as -> ->.
    eexists _, _, _. split; [done|]. split; [done|].
    split; [split; [lia|]|].
    { pose proof (filter_length_le (fun t => bool_decide (status t = Completed))
                    (List.filter
                       (fun t =>
                          (bool_decide (task_type t = One_time)
                           && match end_date t with
                              | Some e0 => PyDate.leb s e0 && PyDate.leb e0 e
                              | None => false
                              end)
                          || is_recurring t) tasks)). lia. }
    split; [done|]. split.
    { pose proof (filter_length_le
                    (fun t =>
                       (bool_decide (task_type t = One_time)
                        && match end_date t with
                           | Some e0 => PyDate.leb s e0 && PyDate.leb e0 e
                           | None => false
                           end)
                       || is_recurring t) tasks). lia. }
    split.
    + intros t Ht. apply tasks_today_spec in Ht as [Hin Hact].
      apply list_elem_of_In, filter_In. split; [by apply list_elem_of_In|].
      unfold is_recurring.
      destruct Hact as [[-> ->] | [-> | [[-> _] | [-> _]]]]; try done.
      by rewrite bool_decide_eq_true_2, Hs, He.
    + intros t Ht. apply list_elem_of_In, filter_In in Ht as [Hin Hc].
      split; [by apply list_elem_of_In|]. intros Hty.
      unfold is_recurring in Hc. rewrite Hty in Hc.
      rewrite orb_false_r in Hc. apply andb_true_iff in Hc as [_ Hc].
      destruct (end_date t) as [due|]; [|done].
      apply andb_true_iff in Hc as [? ?]. eauto.
  - unfold period_window in Hw.
    destruct (sub_days today (weekday today)) as [s0|] eqn:Es;
      cbn [rbind] in Hw |- *; [|by apply (f_equal (fun r => match r with Raise x => x | Ok _ => err end)) in Hw as ->].
    destruct (add_days s0 6) as [e0|] eqn:Ee; cbn [rbind] in Hw |- *; [done|].
    by apply (f_equal (fun r => match r with Raise x => x | Ok _ => err end)) in Hw as ->.
Qed.

Lemma this_week_counts_todays_tasks_witness :
  this_week (Date 2025 4 24) [daily_walk; dentist; watering] = Ok (1, 3)
  /\ exists l, week_tasks (Date 2025 4 24) [daily_walk; dentist; watering] = Ok l
               /\ daily_walk ∈ l.
Proof.
  pose proof (this_week_counts_todays_tasks (Date 2025 4 24)
                [daily_walk; dentist; watering] eq_refl) as H.
  change (period_window Weekly_goal (Date 2025 4 24))
    with (Ok (Date 2025 4 21, Date 2025 4 27)) in H.
  destruct H as (l & c & n & Hl & Hc & _ & _ & _ & Hin & _).
  split; [reflexivity|]. exists l. split; [exact Hl|].
  apply Hin. apply tasks_today_spec. split; [apply list_elem_of_In; simpl; tauto|].
  right. left. reflexivity.
Defined.

Lemma priority_counts_fold tasks h m l :
  foldl (fun '(high, medium, low) t =>
           if bool_decide (status t = Completed) then
             match priority t with
             | High => (high + 1, medium, low)
             | Medium => (high, medium + 1, low)
             | Low => (high, medium, low + 1)
             end
           else (high, medium, low))
        (h, m, l) tasks
  = (h + Z.of_nat (length (List.filter (fun t => bool_decide (status t = Completed) && bool_decide (priority t = High)) tasks)),
     m + Z.of_nat (length (List.filter (fun t => bool_decide (status t = Completed) && bool_decide (priority t = Medium)) tasks)),
     l + Z.of_nat (length (List.filter (fun t => bool_decide (status t = Completed) && bool_decide (priority t = Low)) tasks))).
Proof.
  revert h m l. induction tasks as [|t tasks IH]; intros h m l; simpl.
  - rewrite !pair_equal_spec; lia.
  - destruct (status t), (priority t); simpl; rewrite IH, !pair_equal_spec; lia.
Qed.

(** X24: each bar of the "Tasks by Priority" chart is the number of
    completed tasks of its priority, High, Medium and Low in this order,
    and the three bars add up to the Completed metric of [task_stats]. *)
Theorem priority_bars_add_up_to_completed today tasks :
  let '(high, medium, low) := priority_counts tasks in
  let completed_with (p : Priority) :=
    Z.of_nat (length (List.filter
                        (fun t => bool_decide (status t = Completed)
                                  && bool_decide (priority t = p))
                        tasks)) in
  high = completed_with High
  /\ medium = completed_with Medium
  /\ low = completed_with Low
  /\ high + medium + low = n_completed (task_stats today tasks).
Proof.
  unfold priority_counts. rewrite priority_counts_fold. cbv zeta.
  split; [done|]. split; [done|]. split; [done|].
  unfold task_stats. cbn [n_completed].
  induction tasks as [|t tasks IH]; simpl; [done|].
  destruct (status t), (priority t); simpl; lia.
Qed.

(** Two completed tasks of low priority, one of high, and a pending one. *)
Example priority_bars_sample :
  priority_counts
    [watering; dentist;
     Task 3 "a" "" Completed Low Daily (Some ""%string) None None None None 0;
     Task 4 "b" "" Completed High Daily (Some ""%string) None None None None 0;
     Task 5 "c" "" Completed Low Daily (Some ""%string) None None None None 0]
  = (1, 1, 2).
Proof. reflexivity. Qed.
